(** * teacup: the file-tree bubble and the help bubble

    A shallow embedding of the two bubbles' update functions
    ([filetree.Bubble.Update], [filetree.Bubble.GetSelectedItem],
    [help.Model.Update], [help.generateHelpScreen]) and the properties of
    their input-mode state machine and command sequencing.

    The widgets of the terminal framework (list, text input, viewport), its
    styling engine and the key bindings are collaborators of the code: the
    part of them the bubbles call is modelled as small records, and their own
    [Update] functions are fields of an environment. *)

From Stdlib Require Import String Ascii List ZArith Bool Lia.
Import ListNotations.
Open Scope string_scope.

(** ** strings.ToLower

    Go lowers an all-ASCII string byte by byte and hands any other string to
    the Unicode mapping, which is kept as a function of the environment. *)
Module GoStrings.

Definition isASCIIbyte (c : ascii) : bool := (nat_of_ascii c <? 128)%nat.

Fixpoint isASCII (s : string) : bool :=
  match s with
  | EmptyString => true
  | String c rest => isASCIIbyte c && isASCII rest
  end.

Definition lowerByte (c : ascii) : ascii :=
  let n := nat_of_ascii c in
  if ((65 <=? n) && (n <=? 90))%nat then ascii_of_nat (n + 32) else c.

Fixpoint lowerASCII (s : string) : string :=
  match s with
  | EmptyString => EmptyString
  | String c rest => String (lowerByte c) (lowerASCII rest)
  end.

Definition ToLower (unicodeLower : string -> string) (s : string) : string :=
  if isASCII s then lowerASCII s else unicodeLower s.

(** What the Unicode tables guarantee about the letter y: no string with a
    byte outside ASCII lowers to ["y"]. *)
Definition lowers_only_Y_to_y (unicodeLower : string -> string) : Prop :=
  forall s, isASCII s = false -> unicodeLower s <> "y".

End GoStrings.

(** ** The file-tree bubble *)
Module Filetree.

(** *** Commands

    A [tea.Cmd] is kept as the term that built it.  [WidgetCmd] stands for a
    command handed back by a widget's own [Update] or [SetItems]. *)
#[warnings="-register-all"] Inductive Cmd : Type :=
| NilCmd
| getDirectoryListingCmd (name : string) (showHidden : bool)
| copyItemCmd (name : string)
| zipItemCmd (name : string)
| unzipItemCmd (name : string)
| createFileCmd (name : string)
| createDirectoryCmd (name : string)
| deleteItemCmd (name : string)
| copyToClipboardCmd (name : string)
| NewStatusMessageCmd (text : string)
| Blink
| WidgetCmd (token : nat)
| Sequentially (cmds : list Cmd)
| Batch (cmds : list Cmd).

(** *** List entries

    Modelled from the spec: the declaration of [Item] is not among the
    sources; an entry has a display name, a path and metadata, and the code
    reads its [FileName]. *)
Record Item : Type := mkItem {
  Title : string;
  Desc : string;
  FileName : string;
  IsDirectory : bool
}.

(** [Item{}] *)
Definition emptyItem : Item :=
  {| Title := ""; Desc := ""; FileName := ""; IsDirectory := false |}.

(** A value of the interface type [list.Item]: nil, an [Item], or a value of
    some other type. *)
Inductive ListItem : Type :=
| NilItem
| AsItem (i : Item)
| Foreign (typeName : string).

(** *** The list widget, as far as the bubble calls it *)
Record ListModel : Type := mkList {
  items : list ListItem;
  index : Z;
  statusMessage : string
}.

(** [list.Model.SelectedItem]: nil unless the cursor is on an item. *)
Definition SelectedItem (l : ListModel) : ListItem :=
  if (index l <? 0)%Z
     || (Z.of_nat (length (items l)) =? 0)%Z
     || (Z.of_nat (length (items l)) <=? index l)%Z
  then NilItem
  else nth (Z.to_nat (index l)) (items l) NilItem.

(** [list.Model.NewStatusMessage]: stores the text, returns the timer. *)
Definition NewStatusMessage (l : ListModel) (s : string) : ListModel * Cmd :=
  ({| items := items l; index := index l; statusMessage := s |},
   NewStatusMessageCmd s).

(** *** The text input, as far as the bubble calls it *)
Record InputModel : Type := mkInput {
  value : string;
  focus : bool;
  Placeholder : string
}.

Definition Focused (i : InputModel) : bool := focus i.
Definition Value (i : InputModel) : string := value i.
Definition Focus (i : InputModel) : InputModel :=
  {| value := value i; focus := true; Placeholder := Placeholder i |}.
Definition Blur (i : InputModel) : InputModel :=
  {| value := value i; focus := false; Placeholder := Placeholder i |}.
Definition Reset (i : InputModel) : InputModel :=
  {| value := ""; focus := focus i; Placeholder := Placeholder i |}.
Definition setPlaceholder (i : InputModel) (p : string) : InputModel :=
  {| value := value i; focus := focus i; Placeholder := p |}.

(** *** Messages *)
Inductive Msg : Type :=
| getDirectoryListingMsg (listing : option (list ListItem))
| copyToClipboardMsg (text : string)
| errorMsg (err : string)
| KeyMsg (key : string)
| OtherMsg (tag : nat).

(** *** Key bindings: [key.Binding] and [key.Matches] *)
Record Binding : Type := mkBinding {
  keys : list string;
  disabled : bool
}.

Definition Matches (k : string) (b : Binding) : bool :=
  existsb (fun v => String.eqb k v && negb (disabled b)) (keys b).

(** *** The bubble *)
Inductive State : Type :=
| idleState
| createFileState
| createDirectoryState
| deleteItemState.

Definition State_eqb (a b : State) : bool :=
  match a, b with
  | idleState, idleState
  | createFileState, createFileState
  | createDirectoryState, createDirectoryState
  | deleteItemState, deleteItemState => true
  | _, _ => false
  end.

Record Bubble : Type := mkBubble {
  state : State;
  list : ListModel;
  input : InputModel;
  showHidden : bool
}.

Definition setList (b : Bubble) (l : ListModel) : Bubble :=
  {| state := state b; list := l; input := input b; showHidden := showHidden b |}.
Definition setInput (b : Bubble) (i : InputModel) : Bubble :=
  {| state := state b; list := list b; input := i; showHidden := showHidden b |}.
Definition setState (b : Bubble) (s : State) : Bubble :=
  {| state := s; list := list b; input := input b; showHidden := showHidden b |}.
Definition setShowHidden (b : Bubble) (h : bool) : Bubble :=
  {| state := state b; list := list b; input := input b; showHidden := h |}.

(** *** What the package takes from outside this file: the key bindings,
    the two directory constants, the status styles, the widgets' own update
    functions and the Unicode part of [strings.ToLower]. *)
Record Env : Type := mkEnv {
  openDirectoryKey : Binding;
  copyItemKey : Binding;
  zipItemKey : Binding;
  unzipItemKey : Binding;
  createFileKey : Binding;
  createDirectoryKey : Binding;
  deleteItemKey : Binding;
  toggleHiddenKey : Binding;
  homeShortcutKey : Binding;
  copyToClipboardKey : Binding;
  escapeKey : Binding;
  submitInputKey : Binding;
  CurrentDirectory : string;
  HomeDirectory : string;
  statusMessageInfoStyle : string -> string;
  statusMessageErrorStyle : string -> string;
  list_SetItems : ListModel -> Datatypes.list ListItem -> ListModel * nat;
  list_Update : ListModel -> Msg -> ListModel * nat;
  input_Update : InputModel -> Msg -> InputModel * nat;
  unicodeLower : string -> string
}.

(** The arm of the key switch a key takes: the first binding it matches. *)
Inductive KeyCase : Type :=
| CaseOpenDirectory
| CaseCopyItem
| CaseZipItem
| CaseUnzipItem
| CaseCreateFile
| CaseCreateDirectory
| CaseDeleteItem
| CaseToggleHidden
| CaseHomeShortcut
| CaseCopyToClipboard
| CaseEscape
| CaseSubmitInput
| CaseNone.

Section WithEnv.

Variable E : Env.

Definition keyCase (k : string) : KeyCase :=
  if Matches k (openDirectoryKey E) then CaseOpenDirectory
  else if Matches k (copyItemKey E) then CaseCopyItem
  else if Matches k (zipItemKey E) then CaseZipItem
  else if Matches k (unzipItemKey E) then CaseUnzipItem
  else if Matches k (createFileKey E) then CaseCreateFile
  else if Matches k (createDirectoryKey E) then CaseCreateDirectory
  else if Matches k (deleteItemKey E) then CaseDeleteItem
  else if Matches k (toggleHiddenKey E) then CaseToggleHidden
  else if Matches k (homeShortcutKey E) then CaseHomeShortcut
  else if Matches k (copyToClipboardKey E) then CaseCopyToClipboard
  else if Matches k (escapeKey E) then CaseEscape
  else if Matches k (submitInputKey E) then CaseSubmitInput
  else CaseNone.

(** [GetSelectedItem]: the type assertion [.(Item)] and its fallback. *)
Definition GetSelectedItem (b : Bubble) : Item :=
  match SelectedItem (list b) with
  | AsItem selectedDir => selectedDir
  | _ => emptyItem
  end.

(** The refresh of the current directory every mutation is paired with. *)
Definition refreshCmd (b : Bubble) : Cmd :=
  getDirectoryListingCmd (CurrentDirectory E) (showHidden b).

(** The switch on [b.state] that closes [Update]: the message goes to the
    list when idle and to the text input otherwise. *)
Definition forward (b : Bubble) (cmds : Datatypes.list Cmd) (msg : Msg) : Bubble * Cmd :=
  match state b with
  | idleState =>
      let '(l, cmd) := list_Update E (list b) msg in
      (setList b l, Batch (cmds ++ [WidgetCmd cmd]))
  | createFileState | createDirectoryState | deleteItemState =>
      let '(i, cmd) := input_Update E (input b) msg in
      (setInput b i, Batch (cmds ++ [WidgetCmd cmd]))
  end.

(** One of copy, zip, unzip: the pair, then the status command. *)
Definition itemAction (b : Bubble) (mutation : string -> Cmd) (text : string)
    (msg : Msg) : Bubble * Cmd :=
  if negb (Focused (input b)) then
    let selectedItem := GetSelectedItem b in
    let '(l, statusCmd) :=
      NewStatusMessage (list b) (statusMessageInfoStyle E text) in
    forward (setList b l)
      [Sequentially [mutation (FileName selectedItem); refreshCmd b]; statusCmd]
      msg
  else forward b [] msg.

(** One of the three keys that open a prompt. *)
Definition openPrompt (b : Bubble) (placeholder : string) (s : State)
    (msg : Msg) : Bubble * Cmd :=
  if negb (Focused (input b)) then
    (setState (setInput b (setPlaceholder (Focus (input b)) placeholder)) s,
     Blink)
  else forward b [] msg.

Definition closeInput (b : Bubble) : Bubble :=
  setInput b (Reset (Blur (input b))).

Definition submit (b : Bubble) (msg : Msg) : Bubble * Cmd :=
  match state b with
  | idleState => (b, NilCmd)
  | createFileState =>
      let '(l, statusCmd) :=
        NewStatusMessage (list b)
          (statusMessageInfoStyle E "Successfully created file") in
      forward (closeInput (setList b l))
        [Sequentially [createFileCmd (Value (input b)); refreshCmd b];
         statusCmd]
        msg
  | createDirectoryState =>
      let '(l, statusCmd) :=
        NewStatusMessage (list b)
          (statusMessageInfoStyle E "Successfully created directory") in
      forward (closeInput (setList b l))
        [statusCmd;
         Sequentially [createDirectoryCmd (Value (input b)); refreshCmd b]]
        msg
  | deleteItemState =>
      if String.eqb (GoStrings.ToLower (unicodeLower E) (Value (input b))) "y"
      then
        let selectedDir := GetSelectedItem b in
        let '(l, statusCmd) :=
          NewStatusMessage (list b)
            (statusMessageInfoStyle E "Successfully deleted item") in
        forward (closeInput (setList b l))
          [statusCmd;
           Sequentially [deleteItemCmd (FileName selectedDir); refreshCmd b]]
          msg
      else forward (closeInput b) [] msg
  end.

(** [Bubble.Update] *)
Definition Update (b : Bubble) (msg : Msg) : Bubble * Cmd :=
  match msg with
  | getDirectoryListingMsg listing =>
      match listing with
      | Some its =>
          let '(l, cmd) := list_SetItems E (list b) its in
          forward (setList b l) [WidgetCmd cmd] msg
      | None => forward b [] msg
      end
  | copyToClipboardMsg text =>
      (* [return b, b.list.NewStatusMessage(...)]: the call runs before [b]
         is read, so the bubble that comes back holds the new status. *)
      let '(l, statusCmd) :=
        NewStatusMessage (list b) (statusMessageInfoStyle E text) in
      (setList b l, statusCmd)
  | errorMsg err =>
      let '(l, statusCmd) :=
        NewStatusMessage (list b) (statusMessageErrorStyle E err) in
      (setList b l, statusCmd)
  | KeyMsg k =>
      match keyCase k with
      | CaseOpenDirectory =>
          if negb (Focused (input b)) then
            let selectedDir := GetSelectedItem b in
            forward b
              [getDirectoryListingCmd (FileName selectedDir) (showHidden b)] msg
          else forward b [] msg
      | CaseCopyItem =>
          itemAction b copyItemCmd "Successfully copied file" msg
      | CaseZipItem =>
          itemAction b zipItemCmd "Successfully zipped item" msg
      | CaseUnzipItem =>
          itemAction b unzipItemCmd "Successfully unzipped item" msg
      | CaseCreateFile =>
          openPrompt b "Enter name of new file" createFileState msg
      | CaseCreateDirectory =>
          openPrompt b "Enter name of new directory" createDirectoryState msg
      | CaseDeleteItem =>
          openPrompt b "Are you sure you want to delete (y/n)?"
            deleteItemState msg
      | CaseToggleHidden =>
          if negb (Focused (input b)) then
            let b' := setShowHidden b (negb (showHidden b)) in
            forward b'
              [getDirectoryListingCmd (CurrentDirectory E) (showHidden b')] msg
          else forward b [] msg
      | CaseHomeShortcut =>
          if negb (Focused (input b)) then
            forward b
              [getDirectoryListingCmd (HomeDirectory E) (showHidden b)] msg
          else forward b [] msg
      | CaseCopyToClipboard =>
          if negb (Focused (input b)) then
            let selectedItem := GetSelectedItem b in
            forward b [copyToClipboardCmd (FileName selectedItem)] msg
          else forward b [] msg
      | CaseEscape =>
          if Focused (input b) then
            forward (setState (setInput b (Blur (Reset (input b)))) idleState)
              [] msg
          else forward b [] msg
      | CaseSubmitInput => submit b msg
      | CaseNone => forward b [] msg
      end
  | OtherMsg _ => forward b [] msg
  end.

(** The bubble after a run of messages. *)
Definition run (b : Bubble) (msgs : Datatypes.list Msg) : Bubble :=
  fold_left (fun b' msg => fst (Update b' msg)) msgs b.

(** Modelled from the spec: the constructor [New] is not among the sources;
    a bubble starts in the idle mode with no prompt open. *)
Definition initial (b : Bubble) : Prop :=
  state b = idleState /\ Focused (input b) = false.

Inductive reachable : Bubble -> Prop :=
| reachable_initial : forall b, initial b -> reachable b
| reachable_Update : forall b msg,
    reachable b -> reachable (fst (Update b msg)).

End WithEnv.

(** *** Reading a command *)

(** The directory refreshes a command holds, with their targets, in order. *)
Fixpoint refreshes (c : Cmd) : Datatypes.list (string * bool) :=
  match c with
  | getDirectoryListingCmd name hidden => [(name, hidden)]
  | Sequentially cs | Batch cs => flat_map refreshes cs
  | _ => []
  end.

(** The operations on the file system a command holds, in order. *)
Fixpoint mutations (c : Cmd) : Datatypes.list Cmd :=
  match c with
  | copyItemCmd _ | zipItemCmd _ | unzipItemCmd _
  | createFileCmd _ | createDirectoryCmd _ | deleteItemCmd _ => [c]
  | Sequentially cs | Batch cs => flat_map mutations cs
  | _ => []
  end.

Definition sideEffecting (c : Cmd) : bool :=
  negb (Nat.eqb (length (mutations c)) 0).

Definition isDelete (c : Cmd) : bool :=
  match c with deleteItemCmd _ => true | _ => false end.

Definition issuesDelete (c : Cmd) : bool := existsb isDelete (mutations c).

Definition isStatus (c : Cmd) : bool :=
  match c with NewStatusMessageCmd _ => true | _ => false end.

Definition isPair (c : Cmd) : bool :=
  match c with
  | Sequentially [m; getDirectoryListingCmd _ _] => sideEffecting m
  | _ => false
  end.

(** Position of the first command of a batch that satisfies [p]. *)
Fixpoint position (p : Cmd -> bool) (cs : Datatypes.list Cmd) : option nat :=
  match cs with
  | [] => None
  | c :: rest =>
      if p c then Some 0%nat else option_map S (position p rest)
  end.

(** In the batch [Update] returns, the status command comes after the
    mutate-and-refresh pair. *)
Definition statusFollowsPair (c : Cmd) : bool :=
  match c with
  | Batch cs =>
      match position isPair cs, position isStatus cs with
      | Some i, Some j => (i <? j)%nat
      | _, _ => false
      end
  | _ => false
  end.

(** The same environment with another list widget. *)
Definition withListUpdate (E : Env)
    (f : ListModel -> Msg -> ListModel * nat) : Env :=
  {| openDirectoryKey := openDirectoryKey E;
     copyItemKey := copyItemKey E;
     zipItemKey := zipItemKey E;
     unzipItemKey := unzipItemKey E;
     createFileKey := createFileKey E;
     createDirectoryKey := createDirectoryKey E;
     deleteItemKey := deleteItemKey E;
     toggleHiddenKey := toggleHiddenKey E;
     homeShortcutKey := homeShortcutKey E;
     copyToClipboardKey := copyToClipboardKey E;
     escapeKey := escapeKey E;
     submitInputKey := submitInputKey E;
     CurrentDirectory := CurrentDirectory E;
     HomeDirectory := HomeDirectory E;
     statusMessageInfoStyle := statusMessageInfoStyle E;
     statusMessageErrorStyle := statusMessageErrorStyle E;
     list_SetItems := list_SetItems E;
     list_Update := f;
     input_Update := input_Update E;
     unicodeLower := unicodeLower E |}.

(** A prompt of mode [m] is open: the input has the focus in that mode. *)
Definition promptActive (b : Bubble) (m : State) : bool :=
  Focused (input b) && State_eqb (state b) m && negb (State_eqb m idleState).

(** *** A sample environment *)
Module Sample.

Definition bind (k : string) : Binding := {| keys := [k]; disabled := false |}.

(** A list widget that moves its cursor on the arrow keys and answers the
    escape key with its quit command (token 9). *)
Definition listUpdate (l : ListModel) (msg : Msg) : ListModel * nat :=
  match msg with
  | KeyMsg "down" =>
      ({| items := items l; index := index l + 1;
          statusMessage := statusMessage l |}, 0%nat)
  | KeyMsg "up" =>
      ({| items := items l; index := index l - 1;
          statusMessage := statusMessage l |}, 0%nat)
  | KeyMsg "esc" => (l, 9%nat)
  | _ => (l, 0%nat)
  end.

(** A text input that appends one-character keys while it has the focus. *)
Definition inputUpdate (i : InputModel) (msg : Msg) : InputModel * nat :=
  match msg with
  | KeyMsg (String c EmptyString) =>
      if focus i
      then ({| value := value i ++ String c EmptyString; focus := focus i;
               Placeholder := Placeholder i |}, 1%nat)
      else (i, 1%nat)
  | _ => (i, 1%nat)
  end.

Definition setItems (l : ListModel) (its : Datatypes.list ListItem)
    : ListModel * nat :=
  ({| items := its; index := index l; statusMessage := statusMessage l |},
   0%nat).

Definition env : Env :=
  {| openDirectoryKey := bind "right";
     copyItemKey := bind "ctrl+c";
     zipItemKey := bind "ctrl+z";
     unzipItemKey := bind "ctrl+u";
     createFileKey := bind "ctrl+f";
     createDirectoryKey := bind "ctrl+d";
     deleteItemKey := bind "ctrl+r";
     toggleHiddenKey := bind "ctrl+h";
     homeShortcutKey := bind "ctrl+g";
     copyToClipboardKey := bind "ctrl+p";
     escapeKey := bind "esc";
     submitInputKey := bind "enter";
     CurrentDirectory := ".";
     HomeDirectory := "~";
     statusMessageInfoStyle := fun s => s;
     statusMessageErrorStyle := fun s => "error: " ++ s;
     list_SetItems := setItems;
     list_Update := listUpdate;
     input_Update := inputUpdate;
     unicodeLower := fun s => s |}.

Definition readme : Item :=
  {| Title := "README.md"; Desc := "1 kB"; FileName := "README.md";
     IsDirectory := false |}.

Definition docs : Item :=
  {| Title := "docs"; Desc := "dir"; FileName := "docs";
     IsDirectory := true |}.

Definition listing : ListModel :=
  {| items := [AsItem readme; AsItem docs]; index := 1; statusMessage := "" |}.

(** A freshly built bubble. *)
Definition fresh : Bubble :=
  {| state := idleState;
     list := listing;
     input := {| value := ""; focus := false; Placeholder := "" |};
     showHidden := false |}.

(** A bubble whose prompt of mode [s] holds [text]. *)
Definition prompting (s : State) (text : string) : Bubble :=
  {| state := s;
     list := listing;
     input := {| value := text; focus := true; Placeholder := "" |};
     showHidden := false |}.

End Sample.

End Filetree.
(** ** The help bubble *)
Module Help.

Definition padding : Z := 1.
Definition keyWidth : Z := 12.

Record AdaptiveColor : Type := mkColor {
  Light : string;
  Dark : string
}.

Record TitleColor : Type := mkTitleColor {
  Background : AdaptiveColor;
  Foreground : AdaptiveColor
}.

(** [Entry]: a single entry in the help bubble. *)
Record Entry : Type := mkEntry {
  Key : string;
  Description : string
}.

(** *** lipgloss styles: the properties the package sets *)
Inductive Border : Type :=
| NormalBorder
| HiddenBorder.

Record Style : Type := mkStyle {
  bold : bool;
  italic : bool;
  foreground : option AdaptiveColor;
  background : option AdaptiveColor;
  width : Z;
  height : Z;
  border : option Border;
  borderTop : bool;
  borderRight : bool;
  borderBottom : bool;
  borderLeft : bool;
  borderForeground : option AdaptiveColor;
  paddingTop : Z;
  paddingRight : Z;
  paddingBottom : Z;
  paddingLeft : Z
}.

Definition NewStyle : Style :=
  {| bold := false; italic := false; foreground := None; background := None;
     width := 0; height := 0; border := None;
     borderTop := false; borderRight := false;
     borderBottom := false; borderLeft := false;
     borderForeground := None;
     paddingTop := 0; paddingRight := 0; paddingBottom := 0;
     paddingLeft := 0 |}.

Definition setBold (v : bool) (s : Style) : Style :=
  mkStyle v (italic s) (foreground s) (background s) (width s) (height s)
    (border s) (borderTop s) (borderRight s) (borderBottom s) (borderLeft s)
    (borderForeground s)
    (paddingTop s) (paddingRight s) (paddingBottom s) (paddingLeft s).
Definition setItalic (v : bool) (s : Style) : Style :=
  mkStyle (bold s) v (foreground s) (background s) (width s) (height s)
    (border s) (borderTop s) (borderRight s) (borderBottom s) (borderLeft s)
    (borderForeground s)
    (paddingTop s) (paddingRight s) (paddingBottom s) (paddingLeft s).
Definition setForeground (c : AdaptiveColor) (s : Style) : Style :=
  mkStyle (bold s) (italic s) (Some c) (background s) (width s) (height s)
    (border s) (borderTop s) (borderRight s) (borderBottom s) (borderLeft s)
    (borderForeground s)
    (paddingTop s) (paddingRight s) (paddingBottom s) (paddingLeft s).
Definition setBackground (c : AdaptiveColor) (s : Style) : Style :=
  mkStyle (bold s) (italic s) (foreground s) (Some c) (width s) (height s)
    (border s) (borderTop s) (borderRight s) (borderBottom s) (borderLeft s)
    (borderForeground s)
    (paddingTop s) (paddingRight s) (paddingBottom s) (paddingLeft s).
Definition setWidth (w : Z) (s : Style) : Style :=
  mkStyle (bold s) (italic s) (foreground s) (background s) w (height s)
    (border s) (borderTop s) (borderRight s) (borderBottom s) (borderLeft s)
    (borderForeground s)
    (paddingTop s) (paddingRight s) (paddingBottom s) (paddingLeft s).
Definition setHeight (h : Z) (s : Style) : Style :=
  mkStyle (bold s) (italic s) (foreground s) (background s) (width s) h
    (border s) (borderTop s) (borderRight s) (borderBottom s) (borderLeft s)
    (borderForeground s)
    (paddingTop s) (paddingRight s) (paddingBottom s) (paddingLeft s).
(** [Border(b)] with no sides given draws all four. *)
Definition setBorder (b : Border) (s : Style) : Style :=
  mkStyle (bold s) (italic s) (foreground s) (background s) (width s)
    (height s) (Some b) true true true true (borderForeground s)
    (paddingTop s) (paddingRight s) (paddingBottom s) (paddingLeft s).
Definition setBorderSides (t r b l : bool) (s : Style) : Style :=
  mkStyle (bold s) (italic s) (foreground s) (background s) (width s)
    (height s) (border s) t r b l (borderForeground s)
    (paddingTop s) (paddingRight s) (paddingBottom s) (paddingLeft s).
Definition setBorderForeground (c : AdaptiveColor) (s : Style) : Style :=
  mkStyle (bold s) (italic s) (foreground s) (background s) (width s)
    (height s) (border s) (borderTop s) (borderRight s) (borderBottom s)
    (borderLeft s) (Some c)
    (paddingTop s) (paddingRight s) (paddingBottom s) (paddingLeft s).
Definition setPadding (t r b l : Z) (s : Style) : Style :=
  mkStyle (bold s) (italic s) (foreground s) (background s) (width s)
    (height s) (border s) (borderTop s) (borderRight s) (borderBottom s)
    (borderLeft s) (borderForeground s) t r b l.

(** *** The viewport widget, as far as the package touches it *)
Record ViewportModel : Type := mkViewport {
  Width : Z;
  Height : Z;
  YOffset : Z;
  content : string;
  viewportStyle : Style
}.

Inductive Msg : Type :=
| KeyMsg (key : string)
| WindowSizeMsg (w h : Z)
| MouseMsg (button : nat)
| OtherMsg (tag : nat).

#[warnings="-register-all"] Inductive Cmd : Type :=
| ViewportCmd (token : nat)
| Batch (cmds : list Cmd).

(** [Model]: the properties of a help bubble. *)
Record Model : Type := mkModel {
  Viewport : ViewportModel;
  Entries : list Entry;
  BorderColor : AdaptiveColor;
  Title : string;
  ModelTitleColor : TitleColor;
  Active : bool;
  Borderless : bool
}.

(** The styling engine and the viewport's own [Update]. *)
Record Env : Type := mkEnv {
  Render : Style -> string -> string;
  JoinHorizontal : list string -> string;
  JoinVertical : list string -> string;
  viewport_Update : ViewportModel -> Msg -> ViewportModel * nat
}.

Section WithEnv.

Variable E : Env.

Definition white : AdaptiveColor := {| Light := "#000000"; Dark := "#ffffff" |}.

(** One turn of the loop over the entries. *)
Definition helpRow (helpScreen : string) (entry : Entry) : string :=
  let keyText :=
    Render E (setWidth keyWidth (setForeground white (setBold true NewStyle)))
      (Key entry) in
  let descriptionText :=
    Render E (setForeground white NewStyle) (Description entry) in
  let row := JoinHorizontal E [keyText; descriptionText] in
  helpScreen ++ (row ++ String (ascii_of_nat 10) EmptyString).

Definition titleStyle (titleColor : TitleColor) : Style :=
  setBorderSides false false true false
    (setItalic true
      (setPadding 0 1 0 1
        (setBorder NormalBorder
          (setForeground (Foreground titleColor)
            (setBackground (Background titleColor)
              (setBold true NewStyle)))))).

(** [generateHelpScreen] *)
Definition generateHelpScreen (title : string) (titleColor : TitleColor)
    (entries : list Entry) (width height : Z) : string :=
  let helpScreen := fold_left helpRow entries "" in
  let titleText := Render E (titleStyle titleColor) title in
  Render E (setHeight height (setWidth width NewStyle))
    (JoinVertical E [titleText; helpScreen]).

Definition setViewport (m : Model) (v : ViewportModel) : Model :=
  {| Viewport := v; Entries := Entries m; BorderColor := BorderColor m;
     Title := Title m; ModelTitleColor := ModelTitleColor m;
     Active := Active m; Borderless := Borderless m |}.

(** [Model.Update] *)
Definition Update (m : Model) (msg : Msg) : Model * Cmd :=
  if Active m then
    let '(v, cmd) := viewport_Update E (Viewport m) msg in
    (setViewport m v, Batch [ViewportCmd cmd])
  else (m, Batch []).

End WithEnv.

(** *** A sample environment *)
Module Sample.

Definition env : Env :=
  {| Render := fun s text => if bold s then "*" ++ text ++ "*" else text;
     JoinHorizontal := fun parts => String.concat " " parts;
     JoinVertical :=
       fun parts => String.concat (String (ascii_of_nat 10) EmptyString) parts;
     viewport_Update :=
       fun v msg =>
         match msg with
         | KeyMsg "down" =>
             (mkViewport (Width v) (Height v) (YOffset v + 1) (content v)
                (viewportStyle v), 0%nat)
         | _ => (v, 0%nat)
         end |}.

Definition colors : TitleColor :=
  {| Background := {| Light := "#eeeeee"; Dark := "#222222" |};
     Foreground := white |}.

Definition entries : list Entry :=
  [ {| Key := "ctrl+c"; Description := "Exit" |};
    {| Key := "j/down"; Description := "Move down" |} ].

Definition inactive : Model :=
  {| Viewport :=
       {| Width := 40; Height := 10; YOffset := 0; content := "";
          viewportStyle := NewStyle |};
     Entries := entries;
     BorderColor := white;
     Title := "Help";
     ModelTitleColor := colors;
     Active := false;
     Borderless := false |}.

End Sample.

End Help.
(** ** What the properties speak of *)
Module FiletreeSpec.
Import Filetree.

(** The six mutating actions: which key, in which state of the bubble,
    issues which operation. *)
Inductive MutatingAction (E : Env) : Bubble -> string -> Cmd -> Prop :=
| action_copy : forall b k,
    keyCase E k = CaseCopyItem -> Focused (input b) = false ->
    MutatingAction E b k (copyItemCmd (FileName (GetSelectedItem b)))
| action_zip : forall b k,
    keyCase E k = CaseZipItem -> Focused (input b) = false ->
    MutatingAction E b k (zipItemCmd (FileName (GetSelectedItem b)))
| action_unzip : forall b k,
    keyCase E k = CaseUnzipItem -> Focused (input b) = false ->
    MutatingAction E b k (unzipItemCmd (FileName (GetSelectedItem b)))
| action_create_file : forall b k,
    keyCase E k = CaseSubmitInput -> state b = createFileState ->
    MutatingAction E b k (createFileCmd (Value (input b)))
| action_create_directory : forall b k,
    keyCase E k = CaseSubmitInput -> state b = createDirectoryState ->
    MutatingAction E b k (createDirectoryCmd (Value (input b)))
| action_delete : forall b k,
    keyCase E k = CaseSubmitInput -> state b = deleteItemState ->
    GoStrings.ToLower (unicodeLower E) (Value (input b)) = "y" ->
    MutatingAction E b k (deleteItemCmd (FileName (GetSelectedItem b))).

(** The list widget takes no part in handling [msg]: whatever its [Update]
    is, the bubble and the command that come back are the same. *)
Definition listNotConsulted (E : Env) (b : Bubble) (msg : Msg) : Prop :=
  forall f, Update (withListUpdate E f) b msg = Update E b msg.

(** What the escape arm does to a bubble whose prompt has the focus: the
    prompt is emptied and closed, and the key goes on to the list. *)
Definition escaped (E : Env) (b : Bubble) (k : string) : Bubble * Cmd :=
  ({| state := idleState;
      list := fst (list_Update E (list b) (KeyMsg k));
      input := {| value := ""; focus := false;
                  Placeholder := Placeholder (input b) |};
      showHidden := showHidden b |},
   Batch [WidgetCmd (snd (list_Update E (list b) (KeyMsg k)))]).

(** The same environment with another [SetItems]. *)
Definition withSetItems (E : Env)
    (g : ListModel -> Datatypes.list ListItem -> ListModel * nat) : Env :=
  {| openDirectoryKey := openDirectoryKey E;
     copyItemKey := copyItemKey E;
     zipItemKey := zipItemKey E;
     unzipItemKey := unzipItemKey E;
     createFileKey := createFileKey E;
     createDirectoryKey := createDirectoryKey E;
     deleteItemKey := deleteItemKey E;
     toggleHiddenKey := toggleHiddenKey E;
     homeShortcutKey := homeShortcutKey E;
     copyToClipboardKey := copyToClipboardKey E;
     escapeKey := escapeKey E;
     submitInputKey := submitInputKey E;
     CurrentDirectory := CurrentDirectory E;
     HomeDirectory := HomeDirectory E;
     statusMessageInfoStyle := statusMessageInfoStyle E;
     statusMessageErrorStyle := statusMessageErrorStyle E;
     list_SetItems := g;
     list_Update := list_Update E;
     input_Update := input_Update E;
     unicodeLower := unicodeLower E |}.

(** The sample bubble after the new-file key, one typed letter and the
    submit key. *)
Definition afterSubmit : Bubble :=
  run Sample.env Sample.fresh [KeyMsg "ctrl+f"; KeyMsg "a"; KeyMsg "enter"].

(** The sample bubble with its new-file prompt open and one letter typed. *)
Definition typing : Bubble :=
  run Sample.env Sample.fresh [KeyMsg "ctrl+f"; KeyMsg "a"].

(** In the idle mode the prompt is closed. *)
Definition idle_unfocused (b : Bubble) : Prop :=
  state b = idleState -> Focused (input b) = false.

(** The bubble and the commands the submit arm hands to the closing switch. *)
Definition submitted (E : Env) (b : Bubble) : Bubble * Datatypes.list Cmd :=
  match state b with
  | idleState => (b, [])
  | createFileState =>
      (closeInput
         (setList b (fst (NewStatusMessage (list b)
            (statusMessageInfoStyle E "Successfully created file")))),
       [Sequentially [createFileCmd (Value (input b)); refreshCmd E b];
        NewStatusMessageCmd
          (statusMessageInfoStyle E "Successfully created file")])
  | createDirectoryState =>
      (closeInput
         (setList b (fst (NewStatusMessage (list b)
            (statusMessageInfoStyle E "Successfully created directory")))),
       [NewStatusMessageCmd
          (statusMessageInfoStyle E "Successfully created directory");
        Sequentially [createDirectoryCmd (Value (input b)); refreshCmd E b]])
  | deleteItemState =>
      if String.eqb (GoStrings.ToLower (unicodeLower E) (Value (input b))) "y"
      then
        (closeInput
           (setList b (fst (NewStatusMessage (list b)
              (statusMessageInfoStyle E "Successfully deleted item")))),
         [NewStatusMessageCmd
            (statusMessageInfoStyle E "Successfully deleted item");
          Sequentially
            [deleteItemCmd (FileName (GetSelectedItem b)); refreshCmd E b]])
      else (closeInput b, [])
  end.

End FiletreeSpec.

(** ** The rest of the help bubble: construction, setters and view *)
Module HelpOps.
Import Help.

(** What the package uses of the viewport besides its [Update]: how
    [SetContent] moves the scroll offset, and [View]. *)
Record ViewportOps : Type := mkViewportOps {
  offsetAfterSetContent : ViewportModel -> string -> Z;
  viewport_View : ViewportModel -> string
}.

(** [viewport.New] *)
Definition viewport_New (w h : Z) : ViewportModel :=
  {| Width := w; Height := h; YOffset := 0; content := "";
     viewportStyle := NewStyle |}.

Definition setPaddingLeft (p : Z) (s : Style) : Style :=
  setPadding (paddingTop s) (paddingRight s) (paddingBottom s) p s.
Definition setPaddingRight (p : Z) (s : Style) : Style :=
  setPadding (paddingTop s) p (paddingBottom s) (paddingLeft s) s.

(** The style [New] stores and [View] rebuilds. *)
Definition boxStyle (borderless : bool) (borderColor : AdaptiveColor) : Style :=
  let border := if borderless then HiddenBorder else NormalBorder in
  setBorderForeground borderColor
    (setBorder border
      (setPaddingRight padding (setPaddingLeft padding NewStyle))).

Definition setStyle (v : ViewportModel) (s : Style) : ViewportModel :=
  {| Width := Width v; Height := Height v; YOffset := YOffset v;
     content := content v; viewportStyle := s |}.

Definition setWidthHeight (v : ViewportModel) (w h : Z) : ViewportModel :=
  {| Width := w; Height := h; YOffset := YOffset v;
     content := content v; viewportStyle := viewportStyle v |}.

Section WithEnv.

Variable E : Env.
Variable V : ViewportOps.

(** [viewport.Model.SetContent] *)
Definition SetContent (v : ViewportModel) (s : string) : ViewportModel :=
  {| Width := Width v; Height := Height v;
     YOffset := offsetAfterSetContent V v s;
     content := s; viewportStyle := viewportStyle v |}.

(** [viewport.Model.GotoTop] *)
Definition viewport_GotoTop (v : ViewportModel) : ViewportModel :=
  {| Width := Width v; Height := Height v; YOffset := 0;
     content := content v; viewportStyle := viewportStyle v |}.

(** [New] *)
Definition New (active borderless : bool) (title : string)
    (titleColor : TitleColor) (borderColor : AdaptiveColor)
    (entries : list Entry) : Model :=
  let viewPort := viewport_New 0 0 in
  let viewPort := setStyle viewPort (boxStyle borderless borderColor) in
  let viewPort :=
    SetContent viewPort (generateHelpScreen E title titleColor entries 0 0) in
  {| Viewport := viewPort;
     Entries := entries;
     BorderColor := borderColor;
     Title := title;
     ModelTitleColor := titleColor;
     Active := active;
     Borderless := borderless |}.

(** [SetSize] *)
Definition SetSize (m : Model) (w h : Z) : Model :=
  let v := setWidthHeight (Viewport m) w h in
  setViewport m
    (SetContent v
       (generateHelpScreen E (Title m) (ModelTitleColor m) (Entries m)
          (Width v) (Height v))).

(** [SetBorderColor] *)
Definition SetBorderColor (m : Model) (color : AdaptiveColor) : Model :=
  {| Viewport := Viewport m; Entries := Entries m; BorderColor := color;
     Title := Title m; ModelTitleColor := ModelTitleColor m;
     Active := Active m; Borderless := Borderless m |}.

(** [SetIsActive] *)
Definition SetIsActive (m : Model) (active : bool) : Model :=
  {| Viewport := Viewport m; Entries := Entries m;
     BorderColor := BorderColor m;
     Title := Title m; ModelTitleColor := ModelTitleColor m;
     Active := active; Borderless := Borderless m |}.

(** [GotoTop] *)
Definition GotoTop (m : Model) : Model :=
  setViewport m (viewport_GotoTop (Viewport m)).

(** [SetTitleColor] *)
Definition SetTitleColor (m : Model) (color : TitleColor) : Model :=
  let m1 :=
    {| Viewport := Viewport m; Entries := Entries m;
       BorderColor := BorderColor m;
       Title := Title m; ModelTitleColor := color;
       Active := Active m; Borderless := Borderless m |} in
  setViewport m1
    (SetContent (Viewport m1)
       (generateHelpScreen E (Title m1) (ModelTitleColor m1) (Entries m1)
          (Width (Viewport m1)) (Height (Viewport m1)))).

(** [SetBorderless] *)
Definition SetBorderless (m : Model) (borderless : bool) : Model :=
  {| Viewport := Viewport m; Entries := Entries m;
     BorderColor := BorderColor m;
     Title := Title m; ModelTitleColor := ModelTitleColor m;
     Active := Active m; Borderless := borderless |}.

(** [View]: the receiver is a copy, so the style set here is not kept. *)
Definition View (m : Model) : string :=
  viewport_View V
    (setStyle (Viewport m) (boxStyle (Borderless m) (BorderColor m))).

(** A call of one of the package's methods on a model. *)
Inductive Call : Type :=
| CallSetSize (w h : Z)
| CallSetBorderColor (color : AdaptiveColor)
| CallSetIsActive (active : bool)
| CallGotoTop
| CallSetTitleColor (color : TitleColor)
| CallSetBorderless (borderless : bool)
| CallUpdate (msg : Msg).

Definition call (m : Model) (c : Call) : Model :=
  match c with
  | CallSetSize w h => SetSize m w h
  | CallSetBorderColor color => SetBorderColor m color
  | CallSetIsActive active => SetIsActive m active
  | CallGotoTop => GotoTop m
  | CallSetTitleColor color => SetTitleColor m color
  | CallSetBorderless borderless => SetBorderless m borderless
  | CallUpdate msg => fst (Update E m msg)
  end.

Definition calls (m : Model) (cs : list Call) : Model := fold_left call cs m.

(** The viewport shows the help screen of the model's title, colours and
    entries at the viewport's size. *)
Definition contentCurrent (m : Model) : Prop :=
  content (Viewport m) =
  generateHelpScreen E (Title m) (ModelTitleColor m) (Entries m)
    (Width (Viewport m)) (Height (Viewport m)).

(** The text of one entry's row. *)
Definition rowText (entry : Entry) : string :=
  JoinHorizontal E
    [Render E (setWidth keyWidth (setForeground white (setBold true NewStyle)))
       (Key entry);
     Render E (setForeground white NewStyle) (Description entry)]
  ++ String (ascii_of_nat 10) EmptyString.

End WithEnv.

(** The viewport's [Update] scrolls: it leaves size and content alone. *)
Definition viewportKeepsContent (E : Env) : Prop :=
  forall v msg,
    Width (fst (viewport_Update E v msg)) = Width v /\
    Height (fst (viewport_Update E v msg)) = Height v /\
    content (fst (viewport_Update E v msg)) = content v.

(** The viewport's [Update] leaves its style alone. *)
Definition viewportKeepsStyle (E : Env) : Prop :=
  forall v msg,
    viewportStyle (fst (viewport_Update E v msg)) = viewportStyle v.

(** A sample viewport: setting content keeps the offset within the text. *)
Definition sampleOps : ViewportOps :=
  {| offsetAfterSetContent :=
       fun v s => Z.min (YOffset v) (Z.of_nat (String.length s));
     viewport_View := fun v => content v |}.

End HelpOps.

(** ** More of what the file-tree properties speak of *)
Module FiletreeMore.
Import Filetree.

(** The text input leaves itself alone while it is blurred. *)
Definition inputIdleWhenBlurred (E : Env) : Prop :=
  forall i msg, Focused i = false -> fst (input_Update E i msg) = i.

(** Nothing is selected, or what is selected is not an [Item]. *)
Definition noItemSelected (b : Bubble) : Prop :=
  forall i, SelectedItem (list b) <> AsItem i.

(** The sample bubble with an empty listing. *)
Definition emptyBubble : Bubble :=
  {| state := idleState;
     list := {| items := []; index := 0; statusMessage := "" |};
     input := {| value := ""; focus := false; Placeholder := "" |};
     showHidden := false |}.

End FiletreeMore.

(** ** The styling engine's process-wide state *)
Module HelpRendering.
Import Help.

(** lipgloss renders through a default renderer whose colour profile and
    background setting belong to the process, not to the caller. *)
Inductive ColorProfile : Type :=
| Ascii
| ANSI
| ANSI256
| TrueColor.

Record RendererState : Type := mkRenderer {
  profile : ColorProfile;
  hasDarkBackground : bool
}.

(** An adaptive colour is its dark variant on a dark background. *)
Definition pick (g : RendererState) (c : AdaptiveColor) : string :=
  if hasDarkBackground g then Dark c else Light c.

(** A sample of the engine at a renderer state: under the [Ascii] profile
    the text comes out bare, under the others it is marked with the colour
    picked for the background. *)
Definition renderAt (g : RendererState) (s : Style) (text : string) : string :=
  match profile g with
  | Ascii => text
  | _ =>
      match foreground s with
      | Some c => "<" ++ pick g c ++ ">" ++ text
      | None => text
      end
  end.

Definition lipglossAt (g : RendererState) : Env :=
  {| Render := renderAt g;
     JoinHorizontal := fun parts => String.concat " " parts;
     JoinVertical :=
       fun parts => String.concat (String (ascii_of_nat 10) EmptyString) parts;
     viewport_Update := fun v _ => (v, 0%nat) |}.

(** Two engines render alike: they give the same text for every style and
    every input of the three functions the help screen is built with. *)
Definition rendersAlike (E1 E2 : Env) : Prop :=
  (forall s text, Render E1 s text = Render E2 s text) /\
  (forall parts, JoinHorizontal E1 parts = JoinHorizontal E2 parts) /\
  (forall parts, JoinVertical E1 parts = JoinVertical E2 parts).

Definition plainDark : RendererState :=
  {| profile := Ascii; hasDarkBackground := true |}.
Definition plainLight : RendererState :=
  {| profile := Ascii; hasDarkBackground := false |}.
Definition colourDark : RendererState :=
  {| profile := TrueColor; hasDarkBackground := true |}.
Definition colourLight : RendererState :=
  {| profile := TrueColor; hasDarkBackground := false |}.

End HelpRendering.

(** ** Properties of the file-tree bubble *)
Module FiletreeFacts.
Import Filetree FiletreeSpec.

(** *** The closing switch *)

Lemma forward_to_input : forall E b cmds msg,
  state b <> idleState ->
  forward E b cmds msg =
  (setInput b (fst (input_Update E (input b) msg)),
   Batch (cmds ++ [WidgetCmd (snd (input_Update E (input b) msg))])).
Proof.
  intros E b cmds msg Hs. unfold forward.
  destruct (state b); try congruence;
    destruct (input_Update E (input b) msg); reflexivity.
Qed.

Lemma forward_to_list : forall E b cmds msg,
  state b = idleState ->
  forward E b cmds msg =
  (setList b (fst (list_Update E (list b) msg)),
   Batch (cmds ++ [WidgetCmd (snd (list_Update E (list b) msg))])).
Proof.
  intros E b cmds msg Hs. unfold forward. rewrite Hs.
  destruct (list_Update E (list b) msg); reflexivity.
Qed.

Lemma forward_state : forall E b cmds msg,
  state (fst (forward E b cmds msg)) = state b.
Proof.
  intros E b cmds msg. destruct (state b) eqn:Hs.
  - rewrite forward_to_list by assumption. exact Hs.
  - rewrite forward_to_input by congruence. exact Hs.
  - rewrite forward_to_input by congruence. exact Hs.
  - rewrite forward_to_input by congruence. exact Hs.
Qed.

Lemma forward_input_idle : forall E b cmds msg,
  state b = idleState ->
  input (fst (forward E b cmds msg)) = input b.
Proof.
  intros. rewrite forward_to_list by assumption. reflexivity.
Qed.

(** The submit arm never writes the mode. *)
Lemma submit_state : forall E b msg,
  state (fst (submit E b msg)) = state b.
Proof.
  intros E b msg. unfold submit.
  destruct (state b) eqn:Hs; simpl.
  - exact Hs.
  - rewrite forward_state. exact Hs.
  - rewrite forward_state. exact Hs.
  - destruct (String.eqb _ "y"); simpl; rewrite forward_state; exact Hs.
Qed.

(** *** Reachable bubbles *)

Lemma reachable_run : forall E msgs b,
  reachable E b -> reachable E (run E b msgs).
Proof.
  intros E msgs. induction msgs as [|msg rest IH]; intros b Hb.
  - exact Hb.
  - simpl. apply IH. apply reachable_Update. exact Hb.
Qed.

Lemma Update_idle_unfocused : forall E b msg,
  idle_unfocused b -> idle_unfocused (fst (Update E b msg)).
Proof.
  intros E b msg Hb. unfold idle_unfocused in *.
  assert (Hfw : forall b' cmds,
            (state b' = idleState -> Focused (input b') = false) ->
            state (fst (forward E b' cmds msg)) = idleState ->
            Focused (input (fst (forward E b' cmds msg))) = false).
  { intros b' cmds Hb' Hs. rewrite forward_state in Hs.
    rewrite forward_input_idle by assumption. auto. }
  destruct msg as [[its|]|text|err|k|tag]; simpl.
  - destruct (list_SetItems E (list b) its) as [l c]. apply Hfw. exact Hb.
  - apply Hfw. exact Hb.
  - exact Hb.
  - exact Hb.
  - destruct (keyCase E k);
      unfold itemAction, openPrompt, submit;
      try (destruct (Focused (input b)) eqn:Hf; simpl;
           try (apply Hfw; simpl; intros Hi; rewrite ?Hf; auto; fail);
           try (intros; discriminate); fail).
    + destruct (state b) eqn:Hs.
      * simpl. intros _. apply Hb. reflexivity.
      * apply Hfw; simpl; intros; congruence.
      * apply Hfw; simpl; intros; congruence.
      * destruct (String.eqb _ "y"); apply Hfw; simpl; intros; congruence.
  - apply Hfw. exact Hb.
Qed.

Lemma reachable_idle_unfocused : forall E b,
  reachable E b -> idle_unfocused b.
Proof.
  intros E b Hb. induction Hb as [b [Hs Hf]|b msg Hb IH].
  - intros _. exact Hf.
  - apply Update_idle_unfocused. exact IH.
Qed.

(** *** The selection accessor *)

Lemma SelectedItem_nothing : forall l,
  (index l < 0)%Z \/ items l = [] \/ (Z.of_nat (length (items l)) <= index l)%Z ->
  SelectedItem l = NilItem.
Proof.
  intros l H. unfold SelectedItem.
  destruct (index l <? 0)%Z eqn:H1; [reflexivity|].
  destruct (Z.of_nat (length (items l)) =? 0)%Z eqn:H2; [reflexivity|].
  destruct (Z.of_nat (length (items l)) <=? index l)%Z eqn:H3; [reflexivity|].
  exfalso. destruct H as [H|[H|H]].
  - apply Z.ltb_ge in H1. lia.
  - rewrite H in H2. discriminate.
  - apply Z.leb_gt in H3. lia.
Qed.

Lemma SelectedItem_under_cursor : forall l x,
  (0 <= index l)%Z ->
  nth_error (items l) (Z.to_nat (index l)) = Some x ->
  SelectedItem l = x.
Proof.
  intros l x Hi Hn. unfold SelectedItem.
  assert (Hlt : (Z.to_nat (index l) < length (items l))%nat).
  { apply nth_error_Some. congruence. }
  destruct (index l <? 0)%Z eqn:H1; [apply Z.ltb_lt in H1; lia|].
  destruct (Z.of_nat (length (items l)) =? 0)%Z eqn:H2;
    [apply Z.eqb_eq in H2; lia|].
  destruct (Z.of_nat (length (items l)) <=? index l)%Z eqn:H3;
    [apply Z.leb_le in H3; lia|].
  simpl. apply nth_error_nth. exact Hn.
Qed.

(** C10. [GetSelectedItem] returns the entry under the cursor when that
    entry is an [Item]; it returns the empty [Item] when nothing is selected
    (cursor off the list, or no items) and when the selected value is nil or
    of another type.  It is a total function: there is no input on which it
    fails. *)
Theorem C10_GetSelectedItem_total : forall b : Bubble,
  (forall i, (0 <= index (list b))%Z ->
     nth_error (items (list b)) (Z.to_nat (index (list b))) = Some (AsItem i) ->
     GetSelectedItem b = i) /\
  (forall t, (0 <= index (list b))%Z ->
     nth_error (items (list b)) (Z.to_nat (index (list b))) = Some (Foreign t) ->
     GetSelectedItem b = emptyItem) /\
  ((0 <= index (list b))%Z ->
     nth_error (items (list b)) (Z.to_nat (index (list b))) = Some NilItem ->
     GetSelectedItem b = emptyItem) /\
  ((index (list b) < 0)%Z \/ items (list b) = [] \/
   (Z.of_nat (length (items (list b))) <= index (list b))%Z ->
     GetSelectedItem b = emptyItem) /\
  (forall i, SelectedItem (list b) = AsItem i -> GetSelectedItem b = i) /\
  ((forall i, SelectedItem (list b) <> AsItem i) ->
     GetSelectedItem b = emptyItem).
Proof.
  intros b. unfold GetSelectedItem. repeat split.
  - intros i Hi Hn. rewrite (SelectedItem_under_cursor _ _ Hi Hn). reflexivity.
  - intros t Hi Hn. rewrite (SelectedItem_under_cursor _ _ Hi Hn). reflexivity.
  - intros Hi Hn. rewrite (SelectedItem_under_cursor _ _ Hi Hn). reflexivity.
  - intros H. rewrite (SelectedItem_nothing _ H). reflexivity.
  - intros i H. rewrite H. reflexivity.
  - intros H. destruct (SelectedItem (list b)) as [|i|t]; try reflexivity.
    exfalso. apply (H i). reflexivity.
Qed.

(** *** Submitting a prompt *)

Lemma Update_submit_state : forall E b k,
  keyCase E k = CaseSubmitInput ->
  state (fst (Update E b (KeyMsg k))) = state b.
Proof.
  intros E b k Hk. unfold Update. rewrite Hk. apply submit_state.
Qed.

(** C1.  The code at a prompt that is submitted: the new-file prompt holds
    ["a.txt"] and the submit key arrives.  The file is created and the input
    is emptied and blurred, but the mode is still [createFileState]; the same
    holds for the other two prompts.  The escape arm, next to it, does set
    [idleState].  For no environment, bubble or message does the submit arm
    change the mode. *)
Theorem C1_submit_leaves_mode_set :
  (forall E b msg, state (fst (submit E b msg)) = state b) /\
  state (fst (Update Sample.env (Sample.prompting createFileState "a.txt")
                (KeyMsg "enter"))) = createFileState /\
  input (fst (Update Sample.env (Sample.prompting createFileState "a.txt")
                (KeyMsg "enter"))) =
    {| value := ""; focus := false; Placeholder := "" |} /\
  mutations (snd (Update Sample.env (Sample.prompting createFileState "a.txt")
                    (KeyMsg "enter"))) = [createFileCmd "a.txt"] /\
  state (fst (Update Sample.env (Sample.prompting createDirectoryState "notes")
                (KeyMsg "enter"))) = createDirectoryState /\
  state (fst (Update Sample.env (Sample.prompting deleteItemState "n")
                (KeyMsg "enter"))) = deleteItemState /\
  state (fst (Update Sample.env (Sample.prompting deleteItemState "y")
                (KeyMsg "enter"))) = deleteItemState /\
  state (fst (Update Sample.env (Sample.prompting createFileState "a.txt")
                (KeyMsg "esc"))) = idleState.
Proof.
  split; [exact submit_state|].
  repeat split; vm_compute; reflexivity.
Qed.

(** *** Mutation, then refresh *)

(** C2.  For each of the six mutating actions the batch [Update] returns
    holds the command [Sequentially [mutation; refresh]], where the refresh
    lists the current directory with the bubble's hidden-files flag; the
    whole command holds that one refresh and that one mutation and no
    other. *)
Theorem C2_mutation_then_one_refresh : forall E b k mutation,
  MutatingAction E b k mutation ->
  (exists before after,
     snd (Update E b (KeyMsg k)) =
     Batch (before ++
            Sequentially
              [mutation;
               getDirectoryListingCmd (CurrentDirectory E) (showHidden b)]
            :: after)) /\
  refreshes (snd (Update E b (KeyMsg k))) =
    [(CurrentDirectory E, showHidden b)] /\
  mutations (snd (Update E b (KeyMsg k))) = [mutation].
Proof.
  intros E b k mutation H.
  destruct H as [b k Hk Hf|b k Hk Hf|b k Hk Hf|b k Hk Hs|b k Hk Hs|b k Hk Hs Hy];
    unfold Update; rewrite Hk; unfold itemAction, submit;
    try (rewrite Hf; simpl negb; cbv iota);
    try rewrite Hs;
    try (rewrite Hy; rewrite String.eqb_refl);
    unfold NewStatusMessage, forward; simpl state;
    match goal with
    | |- context [match ?s with idleState => _ | _ => _ end] =>
        destruct s
    | _ => idtac
    end;
    repeat match goal with
    | |- context [list_Update ?e ?l ?m] => destruct (list_Update e l m)
    | |- context [input_Update ?e ?l ?m] => destruct (input_Update e l m)
    end;
    simpl;
    (split; [|split; reflexivity]).
  all: try (exists []; eexists; reflexivity).
  all: try (eexists [_]; eexists; reflexivity).
Qed.

(** The new-directory prompt of the sample, submitted. *)
Lemma C2_mutation_then_one_refresh_witness :
  refreshes (snd (Update Sample.env
                    (Sample.prompting createDirectoryState "notes")
                    (KeyMsg "enter"))) = [(".", false)] /\
  mutations (snd (Update Sample.env
                    (Sample.prompting createDirectoryState "notes")
                    (KeyMsg "enter"))) = [createDirectoryCmd "notes"].
Proof.
  refine (proj2 (C2_mutation_then_one_refresh Sample.env
                   (Sample.prompting createDirectoryState "notes") "enter"
                   (createDirectoryCmd "notes") _)).
  apply (action_create_directory Sample.env
           (Sample.prompting createDirectoryState "notes") "enter");
    reflexivity.
Defined.

(** *** Where the status command stands *)

(** C3.  The code at the new-directory prompt and at a confirmed delete: in
    the batch the status command stands before the mutate-and-refresh pair.
    At the new-file prompt and at the copy key it stands after it. *)
Theorem C3_status_before_pair :
  snd (Update Sample.env (Sample.prompting createDirectoryState "notes")
         (KeyMsg "enter")) =
    Batch [NewStatusMessageCmd "Successfully created directory";
           Sequentially [createDirectoryCmd "notes";
                         getDirectoryListingCmd "." false];
           WidgetCmd 1] /\
  statusFollowsPair
    (snd (Update Sample.env (Sample.prompting createDirectoryState "notes")
            (KeyMsg "enter"))) = false /\
  snd (Update Sample.env (Sample.prompting deleteItemState "y")
         (KeyMsg "enter")) =
    Batch [NewStatusMessageCmd "Successfully deleted item";
           Sequentially [deleteItemCmd "docs";
                         getDirectoryListingCmd "." false];
           WidgetCmd 1] /\
  statusFollowsPair
    (snd (Update Sample.env (Sample.prompting deleteItemState "y")
            (KeyMsg "enter"))) = false /\
  statusFollowsPair
    (snd (Update Sample.env (Sample.prompting createFileState "a.txt")
            (KeyMsg "enter"))) = true /\
  statusFollowsPair
    (snd (Update Sample.env Sample.fresh (KeyMsg "ctrl+c"))) = true.
Proof.
  repeat split; vm_compute; reflexivity.
Qed.

(** *** Confirming a delete *)

Lemma lowerByte_y : forall c,
  GoStrings.lowerByte c = "y"%char -> c = "y"%char \/ c = "Y"%char.
Proof.
  intros c H.
  destruct c as [[] [] [] [] [] [] [] []]; vm_compute in H;
    try discriminate H; auto.
Qed.

Lemma ToLower_y : forall u v,
  GoStrings.lowers_only_Y_to_y u ->
  GoStrings.ToLower u v = "y" <-> v = "y" \/ v = "Y".
Proof.
  intros u v Hu. unfold GoStrings.ToLower. split.
  - destruct (GoStrings.isASCII v) eqn:Ha.
    + destruct v as [|c [|c' rest]]; simpl; intros H; try discriminate H.
      injection H as H. destruct (lowerByte_y c H); subst; auto.
    + intros H. exfalso. exact (Hu v Ha H).
  - intros [H|H]; subst; reflexivity.
Qed.

(** C4.  At the submit key in the delete-confirm mode a delete command is
    issued exactly when the entered text is ["y"] or ["Y"].  For any other
    text the command that comes back is only the text input's own: it holds
    no operation on the file system and no refresh, the list is as it was,
    and the input was emptied and blurred before the key went to it. *)
Theorem C4_delete_only_on_y : forall E b k,
  GoStrings.lowers_only_Y_to_y (unicodeLower E) ->
  state b = deleteItemState ->
  keyCase E k = CaseSubmitInput ->
  (issuesDelete (snd (Update E b (KeyMsg k))) = true <->
   (Value (input b) = "y" \/ Value (input b) = "Y")) /\
  (Value (input b) <> "y" -> Value (input b) <> "Y" ->
   snd (Update E b (KeyMsg k)) =
     Batch [WidgetCmd
              (snd (input_Update E (Reset (Blur (input b))) (KeyMsg k)))] /\
   sideEffecting (snd (Update E b (KeyMsg k))) = false /\
   refreshes (snd (Update E b (KeyMsg k))) = [] /\
   list (fst (Update E b (KeyMsg k))) = list b /\
   input (fst (Update E b (KeyMsg k))) =
     fst (input_Update E (Reset (Blur (input b))) (KeyMsg k))).
Proof.
  intros E b k Hu Hs Hk.
  pose proof (ToLower_y (unicodeLower E) (Value (input b)) Hu) as Hy.
  unfold Update. rewrite Hk. unfold submit. rewrite Hs.
  destruct (String.eqb (GoStrings.ToLower (unicodeLower E) (Value (input b))) "y")
    eqn:Heq.
  - apply String.eqb_eq in Heq. apply Hy in Heq.
    unfold NewStatusMessage.
    rewrite forward_to_input by (simpl; congruence).
    split.
    + split; [intros _; exact Heq | intros _; reflexivity].
    + intros H1 H2. destruct Heq; contradiction.
  - apply String.eqb_neq in Heq.
    rewrite forward_to_input by (simpl; congruence).
    split.
    + split; [simpl; discriminate | intros H; exfalso; apply Heq, Hy, H].
    + intros _ _. repeat split.
Qed.

(** The sample's delete prompt answered with ["n"]. *)
Lemma C4_delete_only_on_y_witness :
  issuesDelete (snd (Update Sample.env (Sample.prompting deleteItemState "n")
                       (KeyMsg "enter"))) = true <->
  (Value (input (Sample.prompting deleteItemState "n")) = "y" \/
   Value (input (Sample.prompting deleteItemState "n")) = "Y").
Proof.
  refine (proj1 (C4_delete_only_on_y Sample.env
                   (Sample.prompting deleteItemState "n") "enter" _ _ _)).
  - intros s Ha H. simpl in H. subst s. discriminate Ha.
  - reflexivity.
  - reflexivity.
Defined.

(** *** Keys while a prompt is open *)

Lemma Update_escape_focused : forall E b k,
  keyCase E k = CaseEscape -> Focused (input b) = true ->
  Update E b (KeyMsg k) = escaped E b k.
Proof.
  intros E b k Hk Hf. unfold Update. rewrite Hk, Hf.
  rewrite forward_to_list by reflexivity. reflexivity.
Qed.

Lemma forward_withListUpdate : forall E f b cmds msg,
  state b <> idleState ->
  forward (withListUpdate E f) b cmds msg = forward E b cmds msg.
Proof.
  intros E f b cmds msg Hs. rewrite !forward_to_input by assumption.
  reflexivity.
Qed.

(** What a key that takes neither the escape nor the submit arm does while
    the prompt has the focus. *)
Lemma Update_focused_plain : forall E b k,
  Focused (input b) = true ->
  keyCase E k <> CaseEscape -> keyCase E k <> CaseSubmitInput ->
  Update E b (KeyMsg k) = forward E b [] (KeyMsg k).
Proof.
  intros E b k Hf He Hs. unfold Update.
  destruct (keyCase E k); try congruence;
    unfold itemAction, openPrompt; rewrite ?Hf; reflexivity.
Qed.

Lemma submit_nonidle : forall E b msg,
  state b <> idleState ->
  submit E b msg = forward E (fst (submitted E b)) (snd (submitted E b)) msg.
Proof.
  intros E b msg Hs. unfold submit, submitted.
  destruct (state b); try congruence; try reflexivity.
  destruct (String.eqb _ "y"); reflexivity.
Qed.

Lemma submitted_frame : forall E b,
  state (fst (submitted E b)) = state b /\
  items (list (fst (submitted E b))) = items (list b) /\
  index (list (fst (submitted E b))) = index (list b).
Proof.
  intros E b. unfold submitted.
  destruct (state b) eqn:Hs; simpl; auto.
  destruct (String.eqb _ "y"); simpl; auto.
Qed.

Lemma submitted_withListUpdate : forall E f b,
  submitted (withListUpdate E f) b = submitted E b.
Proof. reflexivity. Qed.

(** C5, as the code has it.  In a reachable bubble whose prompt has the
    focus, one prompt is open and no other.  A key that does not take the
    escape arm goes to the text input and the list widget has no part in
    it: the list keeps its items and its cursor, and but for the submit arm
    the bubble that meets the input is the one that came in.  A key that
    takes the escape arm closes the prompt and is then handed to the list
    widget, not to the text input. *)
Theorem C5_keys_while_prompting : forall E b k,
  reachable E b ->
  Focused (input b) = true ->
  (forall m1 m2,
     promptActive b m1 = true -> promptActive b m2 = true -> m1 = m2) /\
  promptActive b (state b) = true /\
  (keyCase E k <> CaseEscape ->
   listNotConsulted E b (KeyMsg k) /\
   exists b1 cmds,
     Update E b (KeyMsg k) =
       (setInput b1 (fst (input_Update E (input b1) (KeyMsg k))),
        Batch (cmds ++
               [WidgetCmd (snd (input_Update E (input b1) (KeyMsg k)))])) /\
     items (list b1) = items (list b) /\
     index (list b1) = index (list b) /\
     (keyCase E k <> CaseSubmitInput -> b1 = b /\ cmds = [])) /\
  (keyCase E k = CaseEscape -> Update E b (KeyMsg k) = escaped E b k).
Proof.
  intros E b k Hr Hf.
  assert (Hs : state b <> idleState).
  { intros Hi. pose proof (reachable_idle_unfocused E b Hr Hi). congruence. }
  split; [|split; [|split]].
  - intros m1 m2 H1 H2. unfold promptActive in H1, H2.
    rewrite Hf in H1, H2.
    destruct (state b), m1, m2; simpl in H1, H2; congruence.
  - unfold promptActive. rewrite Hf.
    destruct (state b); simpl; congruence.
  - intros He.
    destruct (keyCase E k) eqn:Hk; try congruence.
    11: {
      assert (Hu : forall E', keyCase E' k = CaseSubmitInput ->
                forall b', state b' <> idleState ->
                Update E' b' (KeyMsg k) =
                forward E' (fst (submitted E' b')) (snd (submitted E' b'))
                  (KeyMsg k)).
      { intros E' Hk' b' Hs'. unfold Update. rewrite Hk'.
        apply submit_nonidle. exact Hs'. }
      destruct (submitted_frame E b) as [Hst [Hit Hix]].
      split.
      - intros f. rewrite (Hu (withListUpdate E f) Hk b Hs), (Hu E Hk b Hs).
        rewrite submitted_withListUpdate.
        apply forward_withListUpdate. congruence.
      - exists (fst (submitted E b)), (snd (submitted E b)).
        rewrite (Hu E Hk b Hs).
        rewrite forward_to_input by congruence.
        repeat split; auto; congruence. }
    all: assert (Hp : forall E', keyCase E' k = keyCase E k ->
                   Update E' b (KeyMsg k) = forward E' b [] (KeyMsg k))
           by (intros E' Hk'; apply Update_focused_plain;
               [exact Hf | rewrite Hk', Hk; discriminate
                         | rewrite Hk', Hk; discriminate]).
    all: split;
      [ intros f; rewrite (Hp (withListUpdate E f) eq_refl), (Hp E eq_refl);
        apply forward_withListUpdate; exact Hs
      | exists b, []; rewrite (Hp E eq_refl);
        rewrite forward_to_input by exact Hs; repeat split ].
  - intros He. apply Update_escape_focused; assumption.
Qed.

Lemma typing_reachable : reachable Sample.env typing.
Proof.
  apply reachable_run. apply reachable_initial. split; reflexivity.
Qed.

(** The sample's new-file prompt, one letter typed, and the key ["x"]. *)
Lemma C5_keys_while_prompting_witness :
  promptActive typing (state typing) = true /\
  listNotConsulted Sample.env typing (KeyMsg "x").
Proof.
  pose (H := C5_keys_while_prompting Sample.env typing "x"
               typing_reachable eq_refl).
  split.
  - exact (proj1 (proj2 H)).
  - refine (proj1 (proj1 (proj2 (proj2 H)) _)). discriminate.
Defined.

(** C5 as stated fails at the escape key: the sample's new-file prompt is
    open with one letter typed; the escape key is answered by the list
    widget (its token 9 comes back), and with another list widget the
    answer is another. *)
Lemma C5_escape_goes_to_the_list :
  reachable Sample.env typing /\
  Focused (input typing) = true /\
  state typing = createFileState /\
  snd (Update Sample.env typing (KeyMsg "esc")) = Batch [WidgetCmd 9] /\
  ~ listNotConsulted Sample.env typing (KeyMsg "esc").
Proof.
  split; [exact typing_reachable|].
  repeat split.
  intros H. specialize (H (fun l _ => (l, 5%nat))).
  vm_compute in H. discriminate H.
Qed.

(** *** Escaping from a prompt *)

(** C6.  The code at an escape key that finds the mode set and the prompt
    blurred: the sample bubble after the new-file key, a letter and the
    submit key is in [createFileState] with the input blurred, and the
    escape key leaves it there.  The escape arm acts only when the input has
    the focus; then it empties and blurs the input and sets the idle mode,
    as it should.  With the input blurred it never changes the mode, and
    the submit arm is what leaves a bubble in that state. *)
Theorem C6_escape_stuck_after_submit :
  reachable Sample.env afterSubmit /\
  state afterSubmit = createFileState /\
  Focused (input afterSubmit) = false /\
  keyCase Sample.env "esc" = CaseEscape /\
  state (fst (Update Sample.env afterSubmit (KeyMsg "esc"))) =
    createFileState /\
  (forall E b k,
     keyCase E k = CaseEscape -> Focused (input b) = false ->
     state (fst (Update E b (KeyMsg k))) = state b) /\
  (forall E b k,
     keyCase E k = CaseEscape -> Focused (input b) = true ->
     Update E b (KeyMsg k) = escaped E b k /\
     Value (input (fst (Update E b (KeyMsg k)))) = "" /\
     Focused (input (fst (Update E b (KeyMsg k)))) = false /\
     state (fst (Update E b (KeyMsg k))) = idleState /\
     sideEffecting (snd (Update E b (KeyMsg k))) = false /\
     refreshes (snd (Update E b (KeyMsg k))) = []).
Proof.
  split.
  { apply reachable_run. apply reachable_initial. split; reflexivity. }
  do 4 (split; [reflexivity|]).
  split.
  - intros E b k Hk Hf. unfold Update. rewrite Hk, Hf.
    apply forward_state.
  - intros E b k Hk Hf. rewrite (Update_escape_focused E b k Hk Hf).
    repeat split.
Qed.

(** *** Errors and empty listings *)

(** C7.  An error event comes back as one status command whose text is the
    styled error message; the list keeps its items and its cursor, and
    nothing else of the bubble changes.  A nil listing goes past [SetItems]:
    whatever [SetItems] is, the result is the same, and outside the idle
    mode the list is untouched. *)
Theorem C7_errors_keep_the_listing : forall E b,
  (forall err,
     Update E b (errorMsg err) =
       (setList b {| items := items (list b);
                     index := index (list b);
                     statusMessage := statusMessageErrorStyle E err |},
        NewStatusMessageCmd (statusMessageErrorStyle E err))) /\
  (forall err,
     items (list (fst (Update E b (errorMsg err)))) = items (list b)) /\
  (forall g,
     Update (withSetItems E g) b (getDirectoryListingMsg None) =
     Update E b (getDirectoryListingMsg None)) /\
  Update E b (getDirectoryListingMsg None) =
    forward E b [] (getDirectoryListingMsg None) /\
  (state b <> idleState ->
     list (fst (Update E b (getDirectoryListingMsg None))) = list b) /\
  (state b = idleState ->
     list (fst (Update E b (getDirectoryListingMsg None))) =
     fst (list_Update E (list b) (getDirectoryListingMsg None))).
Proof.
  intros E b. repeat split.
  - intros Hs. simpl. rewrite forward_to_input by exact Hs. reflexivity.
  - intros Hs. simpl. rewrite forward_to_list by exact Hs. reflexivity.
Qed.

End FiletreeFacts.

(** ** Properties of the help bubble *)
Module HelpFacts.
Import Help HelpRendering.

Lemma helpRows_alike : forall E1 E2 es acc,
  rendersAlike E1 E2 ->
  fold_left (helpRow E1) es acc = fold_left (helpRow E2) es acc.
Proof.
  intros E1 E2 es acc [Hr [Hh Hv]]. revert acc.
  induction es as [|e es IH]; intros acc; simpl.
  - reflexivity.
  - rewrite IH. f_equal. unfold helpRow. rewrite !Hr, Hh. reflexivity.
Qed.

(** C8, as the code has it.  Two calls of [generateHelpScreen] with the
    same title, title colour, entries, width and height give the same text
    when the styling engine renders alike in both, that is when [Render]
    and the two join functions give the same results; nothing else of the
    surroundings reaches the text. *)
Theorem C8_same_inputs_same_rendering_same_text :
  forall E1 E2 title1 title2 color1 color2 entries1 entries2 w1 w2 h1 h2,
  rendersAlike E1 E2 ->
  title1 = title2 -> color1 = color2 -> entries1 = entries2 ->
  w1 = w2 -> h1 = h2 ->
  generateHelpScreen E1 title1 color1 entries1 w1 h1 =
  generateHelpScreen E2 title2 color2 entries2 w2 h2.
Proof.
  intros E1 E2 title1 title2 color1 color2 entries1 entries2 w1 w2 h1 h2
    Ha Ht Hc He Hw Hh.
  subst. unfold generateHelpScreen.
  rewrite (helpRows_alike E1 E2 entries2 "" Ha).
  destruct Ha as [Hr [_ Hv]]. rewrite !Hr, Hv. reflexivity.
Qed.

(** The sample help screen under the [Ascii] profile, on a dark and on a
    light background. *)
Lemma C8_same_inputs_same_rendering_same_text_witness :
  generateHelpScreen (lipglossAt plainDark) "Help" Sample.colors
    Sample.entries 40 10 =
  generateHelpScreen (lipglossAt plainLight) "Help" Sample.colors
    Sample.entries 40 10.
Proof.
  apply (C8_same_inputs_same_rendering_same_text
           (lipglossAt plainDark) (lipglossAt plainLight));
    try reflexivity.
  repeat split.
Defined.

(** C8 as stated fails: the same title, title colour, entries, width and
    height give one text under the [Ascii] profile and another under
    [TrueColor], and under [TrueColor] one text on a dark background and
    another on a light one. *)
Lemma C8_text_depends_on_renderer_state :
  generateHelpScreen (lipglossAt plainDark) "Help" Sample.colors
    Sample.entries 40 10 <>
  generateHelpScreen (lipglossAt colourDark) "Help" Sample.colors
    Sample.entries 40 10 /\
  generateHelpScreen (lipglossAt colourDark) "Help" Sample.colors
    Sample.entries 40 10 <>
  generateHelpScreen (lipglossAt colourLight) "Help" Sample.colors
    Sample.entries 40 10.
Proof.
  split; vm_compute; discriminate.
Qed.

(** C9.  An inactive help bubble comes back from [Update] as it went in,
    whatever the message, and the command is the batch of no commands: the
    viewport's [Update] is not run. *)
Theorem C9_inactive_Update_is_identity : forall E m msg,
  Active m = false ->
  Update E m msg = (m, Batch []).
Proof.
  intros E m msg Ha. unfold Update. rewrite Ha. reflexivity.
Qed.

(** The inactive sample bubble and the down key. *)
Lemma C9_inactive_Update_is_identity_witness :
  Update Sample.env Sample.inactive (KeyMsg "down") =
  (Sample.inactive, Batch []).
Proof.
  apply (C9_inactive_Update_is_identity Sample.env Sample.inactive
           (KeyMsg "down")).
  reflexivity.
Defined.

End HelpFacts.

(** ** Further properties of the file-tree bubble *)
Module FiletreeExtra.
Import Filetree FiletreeSpec FiletreeMore.

Lemma forward_cases : forall E b cmds msg,
  exists b' t,
    forward E b cmds msg = (b', Batch (cmds ++ [WidgetCmd t])) /\
    state b' = state b /\ showHidden b' = showHidden b /\
    (state b = idleState -> input b' = input b) /\
    (state b <> idleState ->
       list b' = list b /\ input b' = fst (input_Update E (input b) msg)).
Proof.
  intros E b cmds msg. destruct (state b) eqn:Hs.
  - rewrite FiletreeFacts.forward_to_list by exact Hs.
    eexists. eexists. split; [reflexivity|].
    simpl. repeat split; auto; intros; congruence.
  - rewrite FiletreeFacts.forward_to_input by congruence.
    eexists. eexists. split; [reflexivity|].
    simpl. repeat split; auto; intros; congruence.
  - rewrite FiletreeFacts.forward_to_input by congruence.
    eexists. eexists. split; [reflexivity|].
    simpl. repeat split; auto; intros; congruence.
  - rewrite FiletreeFacts.forward_to_input by congruence.
    eexists. eexists. split; [reflexivity|].
    simpl. repeat split; auto; intros; congruence.
Qed.

(** Replaces a call of the closing switch by its result. *)
Ltac step_forward :=
  match goal with
  | |- context [forward ?E ?b ?cmds ?msg] =>
      let b' := fresh "b'" in
      let t := fresh "t" in
      let Hfw := fresh "Hfw" in
      let Hst := fresh "Hst" in
      let Hsh := fresh "Hsh" in
      let Hidle := fresh "Hidle" in
      let Hbusy := fresh "Hbusy" in
      destruct (forward_cases E b cmds msg)
        as [b' [t [Hfw [Hst [Hsh [Hidle Hbusy]]]]]];
      rewrite Hfw; clear Hfw; simpl fst; simpl snd
  end.

(** Opens every arm of [Update] on a key. *)
Ltac open_arms :=
  unfold itemAction, openPrompt, submit, NewStatusMessage, refreshCmd.

Lemma toggle_arm : forall E b k,
  keyCase E k = CaseToggleHidden ->
  Focused (input b) = false ->
  Update E b (KeyMsg k) =
  forward E (setShowHidden b (negb (showHidden b)))
    [getDirectoryListingCmd (CurrentDirectory E) (negb (showHidden b))]
    (KeyMsg k).
Proof.
  intros E b k Hk Hf. unfold Update. rewrite Hk, Hf. reflexivity.
Qed.

(** X1.  The toggle key, with the prompt blurred, flips the hidden-files
    flag and asks for one listing of the current directory with the new
    flag; it issues no operation on the file system and keeps the mode. *)
Theorem toggle_hidden_refreshes_once : forall E b k,
  keyCase E k = CaseToggleHidden ->
  Focused (input b) = false ->
  showHidden (fst (Update E b (KeyMsg k))) = negb (showHidden b) /\
  refreshes (snd (Update E b (KeyMsg k))) =
    [(CurrentDirectory E, negb (showHidden b))] /\
  mutations (snd (Update E b (KeyMsg k))) = [] /\
  state (fst (Update E b (KeyMsg k))) = state b.
Proof.
  intros E b k Hk Hf. rewrite (toggle_arm E b k Hk Hf).
  step_forward. simpl in *. repeat split; assumption.
Qed.

Lemma toggle_hidden_refreshes_once_witness :
  showHidden (fst (Update Sample.env Sample.fresh (KeyMsg "ctrl+h"))) =
    negb (showHidden Sample.fresh) /\
  refreshes (snd (Update Sample.env Sample.fresh (KeyMsg "ctrl+h"))) =
    [(CurrentDirectory Sample.env, negb (showHidden Sample.fresh))] /\
  mutations (snd (Update Sample.env Sample.fresh (KeyMsg "ctrl+h"))) = [] /\
  state (fst (Update Sample.env Sample.fresh (KeyMsg "ctrl+h"))) =
    state Sample.fresh.
Proof.
  apply (toggle_hidden_refreshes_once Sample.env Sample.fresh "ctrl+h");
    reflexivity.
Defined.

(** X2.  [Update] changes the hidden-files flag exactly when the message is
    a key that takes the toggle arm while the prompt is blurred. *)
Theorem hidden_flag_changes_only_on_toggle : forall E b msg,
  showHidden (fst (Update E b msg)) <> showHidden b <->
  exists k, msg = KeyMsg k /\ keyCase E k = CaseToggleHidden /\
            Focused (input b) = false.
Proof.
  intros E b msg. split.
  - intros Hne.
    destruct msg as [[its|]|text|err|k|tag]; simpl in Hne;
      try (exfalso; apply Hne; reflexivity);
      try (exfalso; apply Hne;
           try destruct (list_SetItems E (list b) its);
           step_forward; assumption).
    exists k. split; [reflexivity|].
    destruct (keyCase E k) eqn:Hk; revert Hne; open_arms;
      destruct (Focused (input b)) eqn:Hf; simpl negb; cbv iota;
      try (intros Hne; exfalso; apply Hne; try reflexivity;
           try (destruct (state b) eqn:Hs; try reflexivity);
           try destruct (String.eqb _ "y");
           step_forward; assumption);
      auto.
  - intros [k [Hm [Hk Hf]]]. subst msg.
    rewrite (toggle_arm E b k Hk Hf). step_forward. rewrite Hsh. simpl.
    destruct (showHidden b); discriminate.
Qed.

(** X3.  In the idle mode with the prompt blurred, two presses of the
    toggle key bring the hidden-files flag back, and the second press asks
    for a listing with the flag the bubble started with. *)
Theorem toggle_hidden_twice : forall E b k,
  keyCase E k = CaseToggleHidden ->
  state b = idleState ->
  Focused (input b) = false ->
  showHidden (run E b [KeyMsg k; KeyMsg k]) = showHidden b /\
  refreshes (snd (Update E (fst (Update E b (KeyMsg k))) (KeyMsg k))) =
    [(CurrentDirectory E, showHidden b)].
Proof.
  intros E b k Hk Hs Hf. unfold run, fold_left.
  assert (H1 : Focused (input (fst (Update E b (KeyMsg k)))) = false /\
               showHidden (fst (Update E b (KeyMsg k))) = negb (showHidden b)).
  { rewrite (toggle_arm E b k Hk Hf). step_forward. simpl in *.
    rewrite Hidle by exact Hs. auto. }
  destruct H1 as [Hf1 Hh1].
  set (b1 := fst (Update E b (KeyMsg k))) in *.
  rewrite (toggle_arm E b1 k Hk Hf1). rewrite Hh1, negb_involutive.
  split; step_forward.
  - rewrite Hsh. reflexivity.
  - reflexivity.
Qed.

Lemma toggle_hidden_twice_witness :
  showHidden (run Sample.env Sample.fresh [KeyMsg "ctrl+h"; KeyMsg "ctrl+h"]) =
    showHidden Sample.fresh /\
  refreshes
    (snd (Update Sample.env
            (fst (Update Sample.env Sample.fresh (KeyMsg "ctrl+h")))
            (KeyMsg "ctrl+h"))) =
    [(CurrentDirectory Sample.env, showHidden Sample.fresh)].
Proof.
  apply (toggle_hidden_twice Sample.env Sample.fresh "ctrl+h"); reflexivity.
Defined.

Lemma prompt_arm : forall E b k placeholder s,
  Focused (input b) = false ->
  openPrompt E b placeholder s (KeyMsg k) =
  ({| state := s;
      list := list b;
      input := {| value := value (input b); focus := true;
                  Placeholder := placeholder |};
      showHidden := showHidden b |}, Blink).
Proof.
  intros E b k placeholder s Hf. unfold openPrompt. rewrite Hf. reflexivity.
Qed.

(** X4.  The mode changes in two ways, and in no other.  A key that takes
    the new-file, new-directory or delete arm while the prompt is blurred
    sets that prompt's mode, gives the input the focus and the prompt's
    placeholder, keeps the typed text, the list and the hidden-files flag,
    and returns the blink command alone.  A key that takes the escape arm
    while the prompt has the focus sets the idle mode and leaves the input
    empty and blurred.  Every other message, the submit key among them,
    leaves the mode as it was. *)
Theorem mode_changes_only_by_prompt_keys_and_escape : forall E b msg,
  (forall k, msg = KeyMsg k -> Focused (input b) = false ->
     (keyCase E k = CaseCreateFile ->
      Update E b msg =
      ({| state := createFileState;
          list := list b;
          input := {| value := value (input b); focus := true;
                      Placeholder := "Enter name of new file" |};
          showHidden := showHidden b |}, Blink)) /\
     (keyCase E k = CaseCreateDirectory ->
      Update E b msg =
      ({| state := createDirectoryState;
          list := list b;
          input := {| value := value (input b); focus := true;
                      Placeholder := "Enter name of new directory" |};
          showHidden := showHidden b |}, Blink)) /\
     (keyCase E k = CaseDeleteItem ->
      Update E b msg =
      ({| state := deleteItemState;
          list := list b;
          input := {| value := value (input b); focus := true;
                      Placeholder :=
                        "Are you sure you want to delete (y/n)?" |};
          showHidden := showHidden b |}, Blink))) /\
  (forall k, msg = KeyMsg k -> Focused (input b) = true ->
     keyCase E k = CaseEscape ->
     state (fst (Update E b msg)) = idleState /\
     input (fst (Update E b msg)) =
       {| value := ""; focus := false;
          Placeholder := Placeholder (input b) |}) /\
  (state (fst (Update E b msg)) = state b \/
   exists k, msg = KeyMsg k /\
     ((Focused (input b) = false /\
       Focused (input (fst (Update E b msg))) = true /\
       snd (Update E b msg) = Blink /\
       list (fst (Update E b msg)) = list b /\
       (keyCase E k = CaseCreateFile /\
          state (fst (Update E b msg)) = createFileState \/
        keyCase E k = CaseCreateDirectory /\
          state (fst (Update E b msg)) = createDirectoryState \/
        keyCase E k = CaseDeleteItem /\
          state (fst (Update E b msg)) = deleteItemState)) \/
      (Focused (input b) = true /\ keyCase E k = CaseEscape /\
       state (fst (Update E b msg)) = idleState))).
Proof.
  intros E b msg. split; [|split].
  - intros k Hm Hf. subst msg. repeat split; intros Hk;
      unfold Update; rewrite Hk; apply prompt_arm; exact Hf.
  - intros k Hm Hf Hk. subst msg.
    rewrite (FiletreeFacts.Update_escape_focused E b k Hk Hf).
    split; reflexivity.
  - destruct msg as [[its|]|text|err|k|tag]; simpl;
      try (left; reflexivity);
      try (left; try destruct (list_SetItems E (list b) its);
           step_forward; assumption).
    destruct (keyCase E k) eqn:Hk;
      try (left; apply FiletreeFacts.submit_state);
      open_arms;
      destruct (Focused (input b)) eqn:Hf; simpl negb; cbv iota;
      try (left; step_forward; simpl in *; congruence).
    + right. exists k. split; [reflexivity|]. left. simpl. repeat split.
      left. split; [exact Hk | reflexivity].
    + right. exists k. split; [reflexivity|]. left. simpl. repeat split.
      right. left. split; [exact Hk | reflexivity].
    + right. exists k. split; [reflexivity|]. left. simpl. repeat split.
      right. right. split; [exact Hk | reflexivity].
    + right. exists k. split; [reflexivity|]. right.
      repeat split; [exact Hk|]. step_forward. simpl in *. assumption.
Qed.

(** X5.  Whatever the message, the command [Update] returns holds at most
    one operation on the file system and at most one directory listing;
    when it holds an operation, it holds the listing of the current
    directory with the bubble's hidden-files flag: no operation goes out
    without its refresh. *)
Theorem no_mutation_without_refresh : forall E b msg,
  (length (mutations (snd (Update E b msg))) <= 1)%nat /\
  (length (refreshes (snd (Update E b msg))) <= 1)%nat /\
  (mutations (snd (Update E b msg)) <> [] ->
   refreshes (snd (Update E b msg)) = [(CurrentDirectory E, showHidden b)]).
Proof.
  intros E b msg.
  destruct msg as [[its|]|text|err|k|tag]; simpl;
    try (repeat split; simpl; auto; congruence);
    try (try destruct (list_SetItems E (list b) its);
         step_forward; simpl; repeat split; auto; congruence).
  destruct (keyCase E k) eqn:Hk; open_arms;
    destruct (Focused (input b)) eqn:Hf; simpl negb; cbv iota;
    try (destruct (state b) eqn:Hs);
    try destruct (String.eqb _ "y");
    try step_forward; simpl; repeat split; auto; congruence.
Qed.

(** X6.  A message that is not a key never makes [Update] issue an
    operation on the file system or a directory listing: a listing that
    arrives, a clipboard result and an error start nothing further. *)
Theorem only_keys_issue_commands : forall E b,
  (forall listing,
     mutations (snd (Update E b (getDirectoryListingMsg listing))) = [] /\
     refreshes (snd (Update E b (getDirectoryListingMsg listing))) = []) /\
  (forall text,
     mutations (snd (Update E b (copyToClipboardMsg text))) = [] /\
     refreshes (snd (Update E b (copyToClipboardMsg text))) = []) /\
  (forall err,
     mutations (snd (Update E b (errorMsg err))) = [] /\
     refreshes (snd (Update E b (errorMsg err))) = []) /\
  (forall tag,
     mutations (snd (Update E b (OtherMsg tag))) = [] /\
     refreshes (snd (Update E b (OtherMsg tag))) = []).
Proof.
  intros E b. repeat split; try reflexivity.
  - destruct listing as [its|]; simpl;
      try destruct (list_SetItems E (list b) its);
      step_forward; reflexivity.
  - destruct listing as [its|]; simpl;
      try destruct (list_SetItems E (list b) its);
      step_forward; reflexivity.
  - simpl. step_forward. reflexivity.
  - simpl. step_forward. reflexivity.
Qed.

Lemma GetSelectedItem_none : forall b,
  noItemSelected b -> GetSelectedItem b = emptyItem.
Proof.
  intros b H. unfold GetSelectedItem.
  destruct (SelectedItem (list b)) as [|i|t] eqn:Hsel; try reflexivity.
  exfalso. exact (H i Hsel).
Qed.

(** X7.  With no item selected (an empty list, a cursor off the list) the
    keys that act on the selection are not held back: with the prompt
    blurred, open asks for the listing of the directory named by the empty
    string, copy, zip and unzip are issued on the empty name, and so is the
    clipboard copy; a confirmed delete is issued on the empty name too. *)
Theorem actions_on_no_selection : forall E b k,
  noItemSelected b ->
  (Focused (input b) = false -> keyCase E k = CaseOpenDirectory ->
   refreshes (snd (Update E b (KeyMsg k))) = [("", showHidden b)]) /\
  (Focused (input b) = false -> keyCase E k = CaseCopyItem ->
   mutations (snd (Update E b (KeyMsg k))) = [copyItemCmd ""]) /\
  (Focused (input b) = false -> keyCase E k = CaseZipItem ->
   mutations (snd (Update E b (KeyMsg k))) = [zipItemCmd ""]) /\
  (Focused (input b) = false -> keyCase E k = CaseUnzipItem ->
   mutations (snd (Update E b (KeyMsg k))) = [unzipItemCmd ""]) /\
  (Focused (input b) = false -> keyCase E k = CaseCopyToClipboard ->
   exists t,
     snd (Update E b (KeyMsg k)) =
     Batch [copyToClipboardCmd ""; WidgetCmd t]) /\
  (state b = deleteItemState -> keyCase E k = CaseSubmitInput ->
   GoStrings.ToLower (unicodeLower E) (Value (input b)) = "y" ->
   mutations (snd (Update E b (KeyMsg k))) = [deleteItemCmd ""]).
Proof.
  intros E b k Hn. pose proof (GetSelectedItem_none b Hn) as Hsel.
  repeat split.
  - intros Hf Hk. unfold Update. rewrite Hk, Hf, Hsel. simpl negb. cbv iota.
    step_forward. reflexivity.
  - intros Hf Hk. unfold Update. rewrite Hk. open_arms.
    rewrite Hf, Hsel. simpl negb. cbv iota. step_forward. reflexivity.
  - intros Hf Hk. unfold Update. rewrite Hk. open_arms.
    rewrite Hf, Hsel. simpl negb. cbv iota. step_forward. reflexivity.
  - intros Hf Hk. unfold Update. rewrite Hk. open_arms.
    rewrite Hf, Hsel. simpl negb. cbv iota. step_forward. reflexivity.
  - intros Hf Hk. unfold Update. rewrite Hk, Hf, Hsel. simpl negb. cbv iota.
    step_forward. eexists. reflexivity.
  - intros Hs Hk Hy. unfold Update. rewrite Hk. open_arms.
    rewrite Hs, Hy, Hsel. rewrite String.eqb_refl. step_forward. reflexivity.
Qed.

Lemma emptyBubble_noItemSelected : noItemSelected emptyBubble.
Proof. intros i H. discriminate H. Qed.

Lemma actions_on_no_selection_witness :
  mutations (snd (Update Sample.env emptyBubble (KeyMsg "ctrl+c"))) =
    [copyItemCmd ""].
Proof.
  refine (proj1 (proj2 (actions_on_no_selection Sample.env emptyBubble
                          "ctrl+c" emptyBubble_noItemSelected)) _ _);
    reflexivity.
Defined.

(** X8.  Because the submit arm leaves the mode set and the input empty, a
    second submit key right after the first issues the creation again, on
    the empty name (given a text input that leaves itself alone while it
    is blurred). *)
Theorem second_submit_creates_empty_name : forall E b k,
  inputIdleWhenBlurred E ->
  keyCase E k = CaseSubmitInput ->
  (state b = createFileState ->
   mutations (snd (Update E (fst (Update E b (KeyMsg k))) (KeyMsg k))) =
     [createFileCmd ""]) /\
  (state b = createDirectoryState ->
   mutations (snd (Update E (fst (Update E b (KeyMsg k))) (KeyMsg k))) =
     [createDirectoryCmd ""]).
Proof.
  intros E b k Hin Hk.
  assert (H1 : state b <> idleState ->
               input (fst (Update E b (KeyMsg k))) =
                 {| value := ""; focus := false;
                    Placeholder := Placeholder (input b) |} /\
               state (fst (Update E b (KeyMsg k))) = state b).
  { intros Hs. unfold Update. rewrite Hk.
    rewrite FiletreeFacts.submit_nonidle by exact Hs.
    destruct (FiletreeFacts.submitted_frame E b) as [Hst _].
    assert (Hi : input (fst (submitted E b)) = Reset (Blur (input b))).
    { unfold submitted. destruct (state b); try congruence; try reflexivity.
      destruct (String.eqb _ "y"); reflexivity. }
    step_forward. split; [|congruence].
    destruct Hbusy as [_ Hb']; [congruence|].
    rewrite Hb', Hi. apply Hin. reflexivity. }
  split; intros Hs;
    (destruct H1 as [Hi1 Hs1]; [congruence|]);
    set (b1 := fst (Update E b (KeyMsg k))) in *;
    unfold Update; rewrite Hk; unfold submit, NewStatusMessage;
    rewrite Hs1, Hs, Hi1; step_forward; reflexivity.
Qed.

Lemma sample_inputIdleWhenBlurred : inputIdleWhenBlurred Sample.env.
Proof.
  intros i msg Hf. unfold Focused in Hf. simpl.
  destruct msg as [l|t|e|k|n]; try reflexivity.
  destruct k as [|c [|c' r]]; try reflexivity.
  simpl. rewrite Hf. reflexivity.
Qed.

Lemma second_submit_creates_empty_name_witness :
  mutations
    (snd (Update Sample.env
            (fst (Update Sample.env (Sample.prompting createFileState "a.txt")
                    (KeyMsg "enter")))
            (KeyMsg "enter"))) = [createFileCmd ""].
Proof.
  refine (proj1 (second_submit_creates_empty_name Sample.env
                   (Sample.prompting createFileState "a.txt") "enter"
                   sample_inputIdleWhenBlurred _) _);
    reflexivity.
Defined.

(** X9.  Outside the idle mode the list widget is out of the loop: no
    message is handed to its [Update], save a key that takes the escape arm
    while the prompt has the focus.  This holds with the prompt blurred as
    well, as it is after a submit: the list then takes no key at all. *)
Theorem list_out_of_the_loop_outside_idle : forall E b msg,
  state b <> idleState ->
  (forall k, msg = KeyMsg k -> keyCase E k = CaseEscape ->
             Focused (input b) = false) ->
  listNotConsulted E b msg.
Proof.
  intros E b msg Hs Hesc f.
  assert (Hfw : forall b' cmds, state b' = state b ->
            forward (withListUpdate E f) b' cmds msg = forward E b' cmds msg).
  { intros b' cmds Hb'. apply FiletreeFacts.forward_withListUpdate.
    congruence. }
  destruct msg as [[its|]|text|err|k|tag]; try reflexivity.
  - simpl. destruct (list_SetItems E (list b) its). apply Hfw. reflexivity.
  - simpl. apply Hfw. reflexivity.
  - unfold Update.
    change (keyCase (withListUpdate E f) k) with (keyCase E k).
    destruct (keyCase E k) eqn:Hk.
    12: {
      rewrite !FiletreeFacts.submit_nonidle by exact Hs.
      rewrite FiletreeFacts.submitted_withListUpdate.
      apply Hfw. apply FiletreeFacts.submitted_frame. }
    11: {
      rewrite (Hesc k eq_refl Hk). apply Hfw. reflexivity. }
    all: unfold itemAction, openPrompt, NewStatusMessage;
      destruct (Focused (input b)); simpl negb; cbv iota;
      try reflexivity; apply Hfw; reflexivity.
  - simpl. apply Hfw. reflexivity.
Qed.

Lemma list_out_of_the_loop_outside_idle_witness :
  listNotConsulted Sample.env afterSubmit (KeyMsg "down").
Proof.
  apply (list_out_of_the_loop_outside_idle Sample.env afterSubmit
           (KeyMsg "down")).
  - discriminate.
  - intros k Hk. injection Hk as Hk. subst k. discriminate.
Defined.

End FiletreeExtra.

(** ** Further properties of the help bubble *)
Module HelpExtra.
Import Help HelpOps.

Lemma string_app_assoc : forall a b c : string,
  ((a ++ b) ++ c = a ++ (b ++ c))%string.
Proof.
  induction a as [|x a IH]; intros b c; simpl.
  - reflexivity.
  - rewrite IH. reflexivity.
Qed.

Lemma string_app_empty : forall a : string, (a ++ "" = a)%string.
Proof.
  induction a as [|x a IH]; simpl; [reflexivity | rewrite IH; reflexivity].
Qed.

Lemma helpRows_acc : forall E es acc,
  fold_left (helpRow E) es acc =
  (acc ++ fold_right (fun e rest => rowText E e ++ rest) "" es)%string.
Proof.
  intros E es. induction es as [|e es IH]; intros acc; simpl.
  - symmetry. apply string_app_empty.
  - rewrite IH. unfold helpRow at 1. fold (rowText E e).
    apply string_app_assoc.
Qed.

(** X10.  The help screen holds one row per entry, in the order of the
    entries, each row made from its own entry alone and closed by a line
    feed; the rows of two lists of entries put together are the rows of the
    first followed by the rows of the second.  Width and height reach only
    the outer style, not the rows or the title. *)
Theorem help_screen_rows : forall E title color es w h,
  generateHelpScreen E title color es w h =
    Render E (setHeight h (setWidth w NewStyle))
      (JoinVertical E
         [Render E (titleStyle color) title;
          fold_right (fun e rest => rowText E e ++ rest)%string "" es]) /\
  (forall es2,
     fold_left (helpRow E) (es ++ es2) "" =
     (fold_left (helpRow E) es "" ++ fold_left (helpRow E) es2 "")%string).
Proof.
  intros E title color es w h. split.
  - unfold generateHelpScreen. rewrite helpRows_acc. reflexivity.
  - intros es2. rewrite fold_left_app.
    rewrite (helpRows_acc E es2 (fold_left (helpRow E) es "")).
    rewrite (helpRows_acc E es2 ""). reflexivity.
Qed.

Lemma call_contentCurrent : forall E V m c,
  viewportKeepsContent E ->
  contentCurrent E m -> contentCurrent E (call E V m c).
Proof.
  intros E V m c Hv Hm. unfold contentCurrent in *.
  destruct c as [w h|color|active| |color|borderless|msg]; simpl;
    try exact Hm; try reflexivity.
  unfold Update. destruct (Active m); [|exact Hm].
  destruct (Hv (Viewport m) msg) as [Hw [Hh Hc]].
  destruct (viewport_Update E (Viewport m) msg) as [v t].
  simpl in *. rewrite Hw, Hh, Hc. exact Hm.
Qed.

(** X11.  From [New] on, through any run of [SetSize], [SetTitleColor],
    [SetBorderColor], [SetBorderless], [SetIsActive], [GotoTop] and
    [Update], the viewport holds the help screen of the model's title,
    title colour and entries at the viewport's current width and height
    (given a viewport whose own [Update] leaves size and content alone).
    [New] itself renders at width 0 and height 0. *)
Theorem content_follows_the_model : forall E V,
  viewportKeepsContent E ->
  forall active borderless title titleColor borderColor entries cs,
  contentCurrent E
    (calls E V (New E V active borderless title titleColor borderColor entries)
       cs) /\
  content (Viewport (New E V active borderless title titleColor borderColor
                       entries)) =
    generateHelpScreen E title titleColor entries 0 0.
Proof.
  intros E V Hv active borderless title titleColor borderColor entries cs.
  split; [|reflexivity].
  assert (H : forall m, contentCurrent E m -> contentCurrent E (calls E V m cs)).
  { induction cs as [|c cs IH]; intros m Hm; simpl.
    - exact Hm.
    - apply IH. apply call_contentCurrent; assumption. }
  apply H. reflexivity.
Qed.

Lemma sample_viewportKeepsContent : viewportKeepsContent Sample.env.
Proof.
  intros v msg. simpl.
  destruct msg as [k|w h|n|n]; try (repeat split; fail).
  repeat (match goal with
          | |- context [match ?x with _ => _ end] =>
              destruct x; try (repeat split; fail)
          end).
Qed.

Lemma content_follows_the_model_witness :
  contentCurrent Sample.env
    (calls Sample.env sampleOps
       (New Sample.env sampleOps true false "Help" Sample.colors white
          Sample.entries)
       [CallSetSize 40 10; CallUpdate (KeyMsg "down");
        CallSetTitleColor Sample.colors]).
Proof.
  exact (proj1 (content_follows_the_model Sample.env sampleOps
                  sample_viewportKeepsContent true false "Help" Sample.colors
                  white Sample.entries
                  [CallSetSize 40 10; CallUpdate (KeyMsg "down");
                   CallSetTitleColor Sample.colors])).
Defined.

Lemma call_viewportStyle : forall E V m c,
  viewportKeepsStyle E ->
  viewportStyle (Viewport (call E V m c)) = viewportStyle (Viewport m).
Proof.
  intros E V m c Hv.
  destruct c as [w h|color|active| |color|borderless|msg]; simpl;
    try reflexivity.
  unfold Update. destruct (Active m); [|reflexivity].
  pose proof (Hv (Viewport m) msg) as Hs.
  destruct (viewport_Update E (Viewport m) msg) as [v t]. exact Hs.
Qed.

(** X12.  The style [New] stores in the viewport is the box style of the
    border flag and border colour given to [New], and no later call
    changes it: [SetBorderless] and [SetBorderColor] write the model's
    fields only.  [View] does not read the stored style; it draws with the
    box style of the current fields, so what it draws follows the setters
    (given a viewport whose own [Update] leaves its style alone). *)
Theorem stored_style_is_the_one_of_New : forall E V,
  viewportKeepsStyle E ->
  forall active borderless title titleColor borderColor entries cs,
  viewportStyle
    (Viewport
       (calls E V
          (New E V active borderless title titleColor borderColor entries) cs))
    = boxStyle borderless borderColor /\
  (forall m s, View V (setViewport m (setStyle (Viewport m) s)) = View V m) /\
  (forall m flag color,
     View V (SetBorderColor (SetBorderless m flag) color) =
     viewport_View V (setStyle (Viewport m) (boxStyle flag color))).
Proof.
  intros E V Hv active borderless title titleColor borderColor entries cs.
  split; [|split; reflexivity].
  assert (H : forall m,
            viewportStyle (Viewport (calls E V m cs)) =
            viewportStyle (Viewport m)).
  { induction cs as [|c cs IH]; intros m; simpl.
    - reflexivity.
    - rewrite IH. apply call_viewportStyle. exact Hv. }
  rewrite H. reflexivity.
Qed.

Lemma sample_viewportKeepsStyle : viewportKeepsStyle Sample.env.
Proof.
  intros v msg. simpl.
  destruct msg as [k|w h|n|n]; try reflexivity.
  repeat (match goal with
          | |- context [match ?x with _ => _ end] =>
              destruct x; try reflexivity
          end).
Qed.

Lemma stored_style_is_the_one_of_New_witness :
  viewportStyle
    (Viewport
       (calls Sample.env sampleOps
          (New Sample.env sampleOps true false "Help" Sample.colors white
             Sample.entries)
          [CallSetBorderless true; CallSetBorderColor (mkColor "#f00" "#f00");
           CallSetSize 40 10]))
    = boxStyle false white.
Proof.
  exact (proj1 (stored_style_is_the_one_of_New Sample.env sampleOps
                  sample_viewportKeepsStyle true false "Help" Sample.colors
                  white Sample.entries
                  [CallSetBorderless true;
                   CallSetBorderColor (mkColor "#f00" "#f00");
                   CallSetSize 40 10])).
Defined.

End HelpExtra.
